(** * USIM file-system emulator: APDU codec, file tree, card session, handlers

    A shallow embedding of the command-processing core of the emulator
    ([apdu/parser.py], [apdu/status_words.py], [apdu/router.py],
    [filesystem/nodes.py], [card/context.py], [card/handlers.py]) together
    with the properties its specification states about it.

    Conventions of the embedding:
    - a Python [int] is a [Z]; a [bytes] value is a [list byte]; indexing a
      [bytes] value yields the [int] in 0..255 held at that position;
    - a function that can raise returns a [result]: [Ok v] or [Raise e];
    - the children [dict] of a container is an association list kept in
      insertion order (the order [dict.values()] iterates in);
    - the tree is built before the first command and no handler changes
      it, so a reference to a node is the node's value; the card context
      holds three such references;
    - the card context is mutated by the handlers, so a handler maps the
      context before the call to the response and the context after it. *)

From Stdlib Require Import ZArith List String Bool Lia.
From Stdlib.Strings Require Import Byte.
Import ListNotations.
Local Open Scope Z_scope.

Set Implicit Arguments.

(* ===================================================================== *)
(** ** Python values: exceptions, bytes, indexing, slicing                *)
(* ===================================================================== *)

(** The three messages [parse_apdu] raises [ApduParseError] with. *)
Inductive ParseMsg : Type :=
| TooShort        (* "APDU too short: need at least 4 header bytes" *)
| LcExceedsData   (* "APDU malformed: Lc=.. but only .. data bytes present" *)
| TrailingBytes.  (* "APDU malformed: unexpected .. trailing bytes after data" *)

(** The exception classes the core raises.  [ApduParseError] is a subclass
    of [ValueError]. *)
Inductive exn : Type :=
| ValueError
| IndexError
| ApduParseError (msg : ParseMsg).

Definition is_ValueError (e : exn) : bool :=
  match e with
  | ValueError | ApduParseError _ => true
  | IndexError => false
  end.

Definition is_IndexError (e : exn) : bool :=
  match e with
  | IndexError => true
  | _ => false
  end.

Inductive result (A : Type) : Type :=
| Ok (a : A)
| Raise (e : exn).

Arguments Ok {A} a.
Arguments Raise {A} e.

Definition bind {A B : Type} (r : result A) (k : A -> result B) : result B :=
  match r with
  | Ok a => k a
  | Raise e => Raise e
  end.

Notation "x <- r ;; k" := (bind r (fun x => k))
  (at level 61, r at next level, right associativity).

Definition bytes : Type := list byte.

(** [len s] is Python's [len(s)]. *)
Definition len {A : Type} (s : list A) : Z := Z.of_nat (List.length s).

(** The [int] a byte stands for, and the byte of an [int] in 0..255. *)
Definition int_of_byte (b : byte) : Z := Z.of_N (Byte.to_N b).

Definition byte_of_int (z : Z) : byte :=
  match Byte.of_N (Z.to_N z) with
  | Some b => b
  | None => x00
  end.

(** [s[i]]: a negative index counts from the end; out of range raises
    [IndexError]. *)
Definition getitem {A : Type} (s : list A) (i : Z) : result A :=
  let j := if i <? 0 then i + len s else i in
  if j <? 0 then Raise IndexError
  else match nth_error s (Z.to_nat j) with
       | Some a => Ok a
       | None => Raise IndexError
       end.

(** [raw[i]] on a [bytes] value yields an [int]. *)
Definition byte_at (s : bytes) (i : Z) : result Z :=
  b <- getitem s i ;; Ok (int_of_byte b).

(** Bound normalisation of a slice: a negative bound counts from the end,
    and the result is clamped to [0 .. len]. *)
Definition clamp_index (n i : Z) : Z :=
  if i <? 0 then Z.max 0 (i + n) else Z.min i n.

(** [s[lo:hi]]; never raises, an out-of-range request is truncated. *)
Definition slice {A : Type} (s : list A) (lo hi : Z) : list A :=
  let l := clamp_index (len s) lo in
  let h := clamp_index (len s) hi in
  firstn (Z.to_nat (h - l)) (skipn (Z.to_nat l) s).

(** [s[lo:]] and [s[:hi]]. *)
Definition slice_from {A : Type} (s : list A) (lo : Z) : list A :=
  slice s lo (len s).

Definition slice_to {A : Type} (s : list A) (hi : Z) : list A :=
  slice s 0 hi.

(* ===================================================================== *)
(** ** apdu/status_words.py                                               *)
(* ===================================================================== *)

Definition SW_SUCCESS : bytes := [x90; x00].
Definition SW_WRONG_LENGTH : bytes := [x67; x00].
Definition SW_INS_NOT_SUPPORTED : bytes := [x6d; x00].
Definition SW_CLA_NOT_SUPPORTED : bytes := [x6e; x00].
Definition SW_FILE_NOT_FOUND : bytes := [x6a; x82].
Definition SW_RECORD_NOT_FOUND : bytes := [x6a; x83].
Definition SW_WRONG_P1P2 : bytes := [x6b; x00].
Definition SW_FUNC_NOT_SUPPORTED : bytes := [x6a; x81].
Definition SW_COMMAND_NOT_ALLOWED : bytes := [x69; x86].
Definition SW_COND_NOT_SATISFIED : bytes := [x69; x85].
Definition SW_SECURITY_STATUS_NOT_SATISFIED : bytes := [x69; x82].

(** The keys of [SW_NAMES]: the status vocabulary. *)
Definition SW_NAMES : list (bytes * string) :=
  [ (SW_SUCCESS, "9000 Success"%string);
    (SW_WRONG_LENGTH, "6700 Wrong length"%string);
    (SW_INS_NOT_SUPPORTED, "6D00 INS not supported"%string);
    (SW_CLA_NOT_SUPPORTED, "6E00 CLA not supported"%string);
    (SW_FILE_NOT_FOUND, "6A82 File not found"%string);
    (SW_RECORD_NOT_FOUND, "6A83 Record not found"%string);
    (SW_WRONG_P1P2, "6B00 Wrong P1/P2"%string);
    (SW_FUNC_NOT_SUPPORTED, "6A81 Function not supported"%string);
    (SW_COMMAND_NOT_ALLOWED, "6986 Command not allowed"%string);
    (SW_COND_NOT_SATISFIED, "6985 Conditions not satisfied"%string);
    (SW_SECURITY_STATUS_NOT_SATISFIED,
       "6982 Security status not satisfied"%string) ].

Definition status_vocabulary : list bytes := map fst SW_NAMES.

(* ===================================================================== *)
(** ** apdu/parser.py                                                     *)
(* ===================================================================== *)

Record Apdu : Type := mkApdu {
  cla : Z;
  ins : Z;
  p1 : Z;
  p2 : Z;
  lc : Z;
  data : bytes;
  le : option Z   (* None means Le not present *)
}.

(** Properties of the dataclass. *)
Definition p1p2 (a : Apdu) : Z := Z.lor (Z.shiftl (p1 a) 8) (p2 a).
Definition has_data (a : Apdu) : bool := lc a >? 0.
Definition has_le (a : Apdu) : bool :=
  match le a with Some _ => true | None => false end.

Definition parse_apdu (raw : bytes) : result Apdu :=
  if len raw <? 4 then Raise (ApduParseError TooShort) else
  cla <- byte_at raw 0 ;;
  ins <- byte_at raw 1 ;;
  p1 <- byte_at raw 2 ;;
  p2 <- byte_at raw 3 ;;
  (* Case 1: header only *)
  if len raw =? 4 then Ok (mkApdu cla ins p1 p2 0 [] None) else
  (* Case 2: header + Le *)
  if len raw =? 5 then
    le <- byte_at raw 4 ;;
    Ok (mkApdu cla ins p1 p2 0 [] (Some le))
  else
  (* len >= 6 -> could be Case 3 or Case 4 *)
  lc <- byte_at raw 4 ;;
  let data_start := 5 in
  let data_end := data_start + lc in
  if data_end >? len raw then Raise (ApduParseError LcExceedsData) else
  let data := slice raw data_start data_end in
  let remaining := slice_from raw data_end in
  (* Case 3: exactly Lc bytes after header, no Le *)
  if len remaining =? 0 then Ok (mkApdu cla ins p1 p2 lc data None) else
  (* Case 4: one trailing byte = Le *)
  if len remaining =? 1 then
    le <- byte_at remaining 0 ;;
    Ok (mkApdu cla ins p1 p2 lc data (Some le))
  else
  (* Anything else is malformed *)
  Raise (ApduParseError TrailingBytes).

(** The fields of an [Apdu] as the data model constrains them: four
    header bytes, [lc] the number of data bytes (at most 255), [le] a byte
    when present. *)
Definition is_u8 (z : Z) : Prop := 0 <= z <= 255.

Definition valid_apdu (a : Apdu) : Prop :=
  is_u8 (cla a) /\ is_u8 (ins a) /\ is_u8 (p1 a) /\ is_u8 (p2 a) /\
  lc a = len (data a) /\ lc a <= 255 /\
  match le a with Some l => is_u8 l | None => True end.

(** Modelled from the spec: the repository has a decoder only; the spec
    speaks of re-encoding an [Apdu] as "header + optional Lc/data/Le".
    The header is the four bytes CLA INS P1 P2; Lc and the data field are
    emitted when the command has data ([has_data]), Le when it is present
    ([has_le]). *)
Definition encode_apdu (a : Apdu) : bytes :=
  [byte_of_int (cla a); byte_of_int (ins a);
   byte_of_int (p1 a); byte_of_int (p2 a)]
  ++ (if has_data a then byte_of_int (lc a) :: data a else [])
  ++ (match le a with Some l => [byte_of_int l] | None => [] end).

(* ===================================================================== *)
(** ** filesystem/nodes.py                                                *)
(* ===================================================================== *)

(** A Python [dict] with [int] keys, in insertion order.  [dict_get] is
    [d.get(k)] and [dict_mem] is [k in d]; [dict_values] is [d.values()]. *)
Definition dict (V : Type) : Type := list (Z * V).

Fixpoint dict_get {V : Type} (d : dict V) (k : Z) : option V :=
  match d with
  | [] => None
  | (k', v) :: rest => if k =? k' then Some v else dict_get rest k
  end.

Definition dict_mem {V : Type} (d : dict V) (k : Z) : bool :=
  match dict_get d k with Some _ => true | None => false end.

Definition dict_keys {V : Type} (d : dict V) : list Z := map fst d.
Definition dict_values {V : Type} (d : dict V) : list V := map snd d.

(** Leaf files.  [TransparentEF] owns a byte string, [LinearFixedEF] a
    list of records. *)
Record TransparentEF : Type := mkTransparentEF {
  tef_fid : Z;
  tef_name : string;
  content : bytes
}.

Record LinearFixedEF : Type := mkLinearFixedEF {
  lef_fid : Z;
  lef_name : string;
  record_len : Z;
  records : list bytes
}.

(** The class hierarchy [FileNode] > [DF] > [MF], [FileNode] > [EF] >
    [TransparentEF], [LinearFixedEF] as a closed variant.  A [DF] (or an
    [MF], a [DF] at the root: [df_is_mf]) owns its children.  The [parent]
    back-reference serves [path_fids] and [path_str] only, which no
    command handler calls, and is left out. *)
Inductive FileNode : Type :=
| NodeDF (d : DF)
| NodeTransparentEF (t : TransparentEF)
| NodeLinearFixedEF (l : LinearFixedEF)
with DF : Type :=
| mkDF (df_is_mf : bool) (df_fid : Z) (df_name : string)
       (df_children : dict FileNode).

Definition is_mf (d : DF) : bool := let (m, _, _, _) := d in m.
Definition fid_of_DF (d : DF) : Z := let (_, f, _, _) := d in f.
Definition name_of_DF (d : DF) : string := let (_, _, n, _) := d in n.
Definition children (d : DF) : dict FileNode := let (_, _, _, cs) := d in cs.

(** [node.fid] *)
Definition fid (n : FileNode) : Z :=
  match n with
  | NodeDF d => fid_of_DF d
  | NodeTransparentEF t => tef_fid t
  | NodeLinearFixedEF l => lef_fid l
  end.

(** [isinstance(node, DF)] *)
Definition isinstance_DF (n : FileNode) : bool :=
  match n with NodeDF _ => true | _ => false end.

(** [FileNode.__post_init__]: the fid is a 16-bit value. *)
Definition fid_in_range (f : Z) : bool := (0x0000 <=? f) && (f <=? 0xFFFF).

(** [LinearFixedEF.__post_init__] on top of it: a positive record length
    that every record has. *)
Definition records_ok (l : LinearFixedEF) : bool :=
  (0 <? record_len l) &&
  forallb (fun r => len r =? record_len l) (records l).

(** [DF.add_child]: a fid already used by a direct child is refused, a
    new child goes to the end of the dict. *)
Definition add_child (self : DF) (node : FileNode) : result DF :=
  if dict_mem (children self) (fid node) then Raise ValueError
  else Ok (mkDF (is_mf self) (fid_of_DF self) (name_of_DF self)
                (children self ++ [(fid node, node)])).

(** [DF.get_child] *)
Definition get_child (self : DF) (f : Z) : option FileNode :=
  dict_get (children self) f.

(** The loop of [DF.find]: over the children in dict order, only a [DF]
    child is searched, and the first hit is returned. *)
Definition first_hit (search : DF -> option FileNode)
  : dict FileNode -> option FileNode :=
  fix loop (cs : dict FileNode) : option FileNode :=
    match cs with
    | [] => None
    | (_, NodeDF child) :: rest =>
        match search child with
        | Some hit => Some hit
        | None => loop rest
        end
    | _ :: rest => loop rest
    end.

(** [DF.find] *)
Fixpoint find (self : DF) (f : Z) {struct self} : option FileNode :=
  match self with
  | mkDF _ self_fid _ cs =>
      if f =? self_fid then Some (NodeDF self)
      else
        (* check the direct children first *)
        match dict_get cs f with
        | Some c => Some c
        | None =>
            (* then search deeper only through DFs *)
            first_hit (fun child => find child f) cs
        end
  end.

(** [TransparentEF.read_binary] *)
Definition read_binary (self : TransparentEF) (offset length : Z)
  : result bytes :=
  if offset <? 0 then Raise ValueError else
  if length <? 0 then Raise ValueError else
  let end_ := offset + length in
  if offset >? len (content self) then Raise IndexError else
  Ok (slice (content self) offset end_).

(** [LinearFixedEF.read_record] *)
Definition read_record (self : LinearFixedEF) (record_number : Z)
  : result bytes :=
  if record_number <=? 0 then Raise IndexError else
  let idx := record_number - 1 in
  if idx >=? len (records self) then Raise IndexError else
  getitem (records self) idx.

Definition record_count (self : LinearFixedEF) : Z := len (records self).

(** The nodes at depth [d] below (and including, at depth 0) a node, in
    child order. *)
Fixpoint nodes_at_depth (d : nat) (n : FileNode) : list FileNode :=
  match d with
  | O => [n]
  | S d' =>
      match n with
      | NodeDF self =>
          flat_map (fun kc => nodes_at_depth d' (snd kc)) (children self)
      | _ => []
      end
  end.

(** A tree as [add_child] and the constructors build it: every fid is a
    16-bit value, every child sits under its own fid, no fid is used twice
    among siblings, and the records of a record file have its length. *)
Fixpoint distinct (ks : list Z) : bool :=
  match ks with
  | [] => true
  | k :: rest => negb (existsb (Z.eqb k) rest) && distinct rest
  end.

Fixpoint wf_DF (self : DF) : bool :=
  match self with
  | mkDF _ f _ cs =>
      fid_in_range f &&
      distinct (dict_keys cs) &&
      (fix wf_children (l : dict FileNode) : bool :=
         match l with
         | [] => true
         | (k, c) :: rest =>
             (k =? fid c) &&
             match c with
             | NodeDF d => wf_DF d
             | NodeTransparentEF t => fid_in_range (tef_fid t)
             | NodeLinearFixedEF r =>
                 fid_in_range (lef_fid r) && records_ok r
             end &&
             wf_children rest
         end) cs
  end.

(* ===================================================================== *)
(** ** card/context.py                                                    *)
(* ===================================================================== *)

(** The state of the emulated card across APDUs.  The fields are typed as
    the dataclass annotates them: [mf_root] and [current_df] hold a
    container, [current_file] any node, none of them [None] (the case
    [__post_init__] repairs). *)
Record CardContext : Type := mkCardContext {
  mf_root : DF;
  current_df : DF;
  current_file : FileNode
}.

Definition from_mf (root : DF) : CardContext :=
  mkCardContext root root (NodeDF root).

(** [current_file] becomes [node]; a DF also becomes [current_df]. *)
Definition select_node (ctx : CardContext) (node : FileNode) : CardContext :=
  match node with
  | NodeDF d => mkCardContext (mf_root ctx) d node
  | _ => mkCardContext (mf_root ctx) (current_df ctx) node
  end.

Definition reset_to_mf (ctx : CardContext) : CardContext :=
  mkCardContext (mf_root ctx) (mf_root ctx) (NodeDF (mf_root ctx)).

Definition find_anywhere (ctx : CardContext) (f : Z) : option FileNode :=
  find (mf_root ctx) f.

Definition find_under_current_df (ctx : CardContext) (f : Z)
  : option FileNode :=
  find (current_df ctx) f.

(* ===================================================================== *)
(** ** card/handlers.py                                                   *)
(* ===================================================================== *)

(** A handler takes the context and the APDU; it returns the response
    bytes (or raises) and leaves the context as it has mutated it. *)
Definition Handler : Type := CardContext -> Apdu -> result bytes * CardContext.

(** SELECT FILE (INS = 0xA4) *)
Definition handle_select : Handler := fun ctx apdu =>
  if (lc apdu =? 0) || (len (data apdu) =? 0) then (Ok SW_WRONG_LENGTH, ctx)
  else
  (* 2-byte FID selection *)
  if negb (len (data apdu) =? 2) then (Ok SW_FUNC_NOT_SUPPORTED, ctx)
  else
  match (d0 <- byte_at (data apdu) 0 ;;
         d1 <- byte_at (data apdu) 1 ;;
         Ok (Z.lor (Z.shiftl d0 8) d1)) with
  | Raise e => (Raise e, ctx)
  | Ok f =>
      (* MF selection convenience *)
      if f =? fid_of_DF (mf_root ctx) then (Ok SW_SUCCESS, reset_to_mf ctx)
      else
        (* relative lookup first (under current DF), then global lookup *)
        let node :=
          match find_under_current_df ctx f with
          | Some n => Some n
          | None => find_anywhere ctx f
          end in
        match node with
        | None => (Ok SW_FILE_NOT_FOUND, ctx)
        | Some n => (Ok SW_SUCCESS, select_node ctx n)
        end
  end.

(** READ BINARY (INS = 0xB0) *)
Definition handle_read_binary : Handler := fun ctx apdu =>
  match current_file ctx with
  | NodeTransparentEF current =>
      match le apdu with
      | None => (Ok SW_WRONG_LENGTH, ctx)
      | Some l =>
          let offset := p1p2 apdu in
          let length := if l =? 0 then 256 else l in
          match read_binary current offset length with
          | Ok d => (Ok (d ++ SW_SUCCESS), ctx)
          | Raise e =>
              if is_IndexError e then (Ok SW_WRONG_P1P2, ctx)
              else if is_ValueError e then (Ok SW_WRONG_P1P2, ctx)
              else (Raise e, ctx)
          end
      end
  | _ => (Ok SW_COMMAND_NOT_ALLOWED, ctx)
  end.

(** READ RECORD (INS = 0xB2) *)
Definition handle_read_record : Handler := fun ctx apdu =>
  match current_file ctx with
  | NodeLinearFixedEF current =>
      let mode := Z.land (p2 apdu) 0x07 in
      if negb (mode =? 0x04) then (Ok SW_FUNC_NOT_SUPPORTED, ctx)
      else
      let record_number := p1 apdu in
      if record_number =? 0 then (Ok SW_WRONG_P1P2, ctx)
      else
      match read_record current record_number with
      | Raise e =>
          if is_IndexError e then (Ok SW_RECORD_NOT_FOUND, ctx)
          else (Raise e, ctx)
      | Ok record =>
          let d :=
            match le apdu with
            | None => record
            | Some l =>
                let length := if l =? 0 then 256 else l in
                slice_to record length
            end in
          (Ok (d ++ SW_SUCCESS), ctx)
      end
  | _ => (Ok SW_COMMAND_NOT_ALLOWED, ctx)
  end.

(* ===================================================================== *)
(** ** apdu/router.py                                                     *)
(* ===================================================================== *)

Definition INS_SELECT_FILE : Z := 0xA4.
Definition INS_READ_BINARY : Z := 0xB0.
Definition INS_READ_RECORD : Z := 0xB2.

Definition HANDLERS : dict Handler :=
  [ (INS_SELECT_FILE, handle_select);
    (INS_READ_BINARY, handle_read_binary);
    (INS_READ_RECORD, handle_read_record) ].

Definition dispatch (ctx : CardContext) (apdu : Apdu)
  : result bytes * CardContext :=
  match dict_get HANDLERS (ins apdu) with
  | None => (Ok SW_INS_NOT_SUPPORTED, ctx)
  | Some handler => handler ctx apdu
  end.

(** [Apdu] with another class byte and all other fields kept. *)
Definition with_cla (a : Apdu) (c : Z) : Apdu :=
  mkApdu c (ins a) (p1 a) (p2 a) (lc a) (data a) (le a).

(* ===================================================================== *)
(** ** transport/tcp_server.py                                            *)
(* ===================================================================== *)

Definition is_ApduParseError (e : exn) : bool :=
  match e with
  | ApduParseError _ => true
  | _ => false
  end.

(** What [_handle_client] does with one non-empty line: the [try] block
    (hex decoding, [parse_apdu], [dispatch]) and its [except] clauses in
    their order, [ValueError] first, then [ApduParseError], then any other
    exception.  The result is the response that is sent back and the
    context as the block leaves it.  [bytes.fromhex(line.decode("ascii"))]
    is library code and is a parameter here. *)
Section Transport.

Variable decode_hex : bytes -> result bytes.

Definition handle_line (ctx : CardContext) (line : bytes)
  : bytes * CardContext :=
  let attempt :=
    match decode_hex line with
    | Raise e => (Raise e, ctx)
    | Ok raw_apdu =>
        match parse_apdu raw_apdu with
        | Raise e => (Raise e, ctx)
        | Ok apdu => dispatch ctx apdu
        end
    end in
  match attempt with
  | (Ok response, ctx') => (response, ctx')
  | (Raise e, ctx') =>
      if is_ValueError e then (SW_WRONG_LENGTH, ctx')
      else if is_ApduParseError e then (SW_WRONG_LENGTH, ctx')
      else (SW_FUNC_NOT_SUPPORTED, ctx')
  end.

End Transport.

(* ===================================================================== *)
(** ** A sample profile                                                   *)
(* ===================================================================== *)

(** MF(3F00) holds DF_A(7F10) and DF_B(7F20), inserted in that order.
    DF_A holds DF_A1(5F10), which holds the transparent file EF_DEEP(6F01);
    DF_B holds the transparent file EF_SHALLOW(6F01) and the record file
    EF_REC(6F3B) with two records of three bytes. *)
Definition EF_DEEP : TransparentEF :=
  mkTransparentEF 0x6F01 "EF_DEEP" [x01; x02; x03; x04].

Definition EF_SHALLOW : TransparentEF :=
  mkTransparentEF 0x6F01 "EF_SHALLOW" [xaa; xbb].

Definition EF_REC : LinearFixedEF :=
  mkLinearFixedEF 0x6F3B "EF_REC" 3 [[x11; x12; x13]; [x21; x22; x23]].

Definition DF_A1 : DF :=
  mkDF false 0x5F10 "DF_A1" [(0x6F01, NodeTransparentEF EF_DEEP)].

Definition DF_A : DF :=
  mkDF false 0x7F10 "DF_A" [(0x5F10, NodeDF DF_A1)].

Definition DF_B : DF :=
  mkDF false 0x7F20 "DF_B"
    [(0x6F01, NodeTransparentEF EF_SHALLOW);
     (0x6F3B, NodeLinearFixedEF EF_REC)].

Definition MF_sample : DF :=
  mkDF true 0x3F00 "MF" [(0x7F10, NodeDF DF_A); (0x7F20, NodeDF DF_B)].

(* ===================================================================== *)
(** ** Notions the statements use                                         *)
(* ===================================================================== *)

(** 16-bit big-endian value of two bytes, as [handle_select] computes the
    fid from the data field. *)
Definition fid_of_bytes (d0 d1 : byte) : Z :=
  Z.lor (Z.shiftl (int_of_byte d0) 8) (int_of_byte d1).

(** The status words the three handlers and the dispatcher return. *)
Definition returned_statuses : list bytes :=
  [ SW_SUCCESS; SW_WRONG_LENGTH; SW_INS_NOT_SUPPORTED; SW_FILE_NOT_FOUND;
    SW_RECORD_NOT_FOUND; SW_WRONG_P1P2; SW_FUNC_NOT_SUPPORTED;
    SW_COMMAND_NOT_ALLOWED ].

(** A response: some data bytes, then one of the returned status words. *)
Definition status_response (r : result bytes * CardContext) : Prop :=
  exists body sw ctx',
    r = (Ok (body ++ sw), ctx') /\ In sw returned_statuses.

(** The statement that the shallowest node carrying the fid is the one
    [find] returns: no node with that fid sits at a smaller depth than
    every place the returned node sits at. *)
Definition shallowest_match_wins (self : DF) (f : Z) : Prop :=
  forall hit, find self f = Some hit ->
  forall d m, In m (nodes_at_depth d (NodeDF self)) -> fid m = f ->
  exists d', (d' <= d)%nat /\ In hit (nodes_at_depth d' (NodeDF self)).

(** What the constructors check of a node, and [wf_DF] below it. *)
Definition wf_node (n : FileNode) : bool :=
  match n with
  | NodeDF d => wf_DF d
  | NodeTransparentEF t => fid_in_range (tef_fid t)
  | NodeLinearFixedEF r => fid_in_range (lef_fid r) && records_ok r
  end.

(** A node of the tree under [root], the root included. *)
Definition in_tree (root : DF) (n : FileNode) : Prop :=
  exists d, In n (nodes_at_depth d (NodeDF root)).

(** No node of the subtree of [self] carries the fid. *)
Definition absent (self : DF) (f : Z) : Prop :=
  forall d m, In m (nodes_at_depth d (NodeDF self)) -> fid m <> f.

(** The selection of a context sits in its tree, and a current file that
    is a container is the current container. *)
Definition selection_ok (ctx : CardContext) : Prop :=
  in_tree (mf_root ctx) (NodeDF (current_df ctx)) /\
  in_tree (mf_root ctx) (current_file ctx) /\
  (forall d, current_file ctx = NodeDF d -> current_df ctx = d).

(** The context after a sequence of commands, each dispatched on the
    context the one before left. *)
Definition after_commands (ctx : CardContext) (apdus : list Apdu)
  : CardContext :=
  fold_left (fun c a => snd (dispatch c a)) apdus ctx.

(** The two data bytes that address a fid, high byte first. *)
Definition bytes_of_fid (f : Z) : bytes :=
  [byte_of_int (f / 256); byte_of_int (f mod 256)].

(** The number of bytes a read asks for: [256 if le == 0 else le]. *)
Definition requested (l : Z) : Z := if l =? 0 then 256 else l.

(* ===================================================================== *)
(** ** Bytes, lengths and slices                                          *)
(* ===================================================================== *)

Lemma len_nil (A : Type) : len (@nil A) = 0.
Proof. reflexivity. Qed.

Lemma len_cons (A : Type) (x : A) (s : list A) : len (x :: s) = 1 + len s.
Proof. unfold len. cbn [List.length]. lia. Qed.

Lemma len_app (A : Type) (s t : list A) : len (s ++ t) = len s + len t.
Proof. unfold len. rewrite length_app. lia. Qed.

Lemma len_nonneg (A : Type) (s : list A) : 0 <= len s.
Proof. unfold len. lia. Qed.

Lemma len_zero_nil (A : Type) (s : list A) : len s = 0 -> s = [].
Proof.
  destruct s as [|x s]; [reflexivity|].
  rewrite len_cons. pose proof (len_nonneg s). lia.
Qed.

Lemma len_firstn (A : Type) (s : list A) (n : Z) :
  0 <= n -> len (firstn (Z.to_nat n) s) = Z.min n (len s).
Proof. intros Hn. unfold len. rewrite length_firstn. lia. Qed.

Lemma len_skipn (A : Type) (s : list A) (n : Z) :
  0 <= n <= len s -> len (skipn (Z.to_nat n) s) = len s - n.
Proof. intros Hn. unfold len in *. rewrite length_skipn. lia. Qed.

Lemma int_of_byte_range (b : byte) : 0 <= int_of_byte b <= 255.
Proof.
  unfold int_of_byte. pose proof (Byte.to_N_bounded b). lia.
Qed.

Lemma byte_of_int_of_byte (b : byte) : byte_of_int (int_of_byte b) = b.
Proof.
  unfold byte_of_int, int_of_byte.
  rewrite N2Z.id, Byte.of_to_N. reflexivity.
Qed.

Lemma int_of_byte_of_int (z : Z) :
  0 <= z <= 255 -> int_of_byte (byte_of_int z) = z.
Proof.
  intros Hz. unfold byte_of_int, int_of_byte.
  destruct (Byte.of_N (Z.to_N z)) as [b|] eqn:E.
  - apply Byte.to_of_N in E. rewrite E. lia.
  - apply Byte.of_N_None_iff in E. lia.
Qed.

(** Within bounds a slice is the plain sub-list. *)
Lemma clamp_index_id (n i : Z) : 0 <= i <= n -> clamp_index n i = i.
Proof.
  intros H. unfold clamp_index.
  destruct (Z.ltb_spec i 0); lia.
Qed.

Lemma clamp_index_over (n i : Z) : 0 <= n <= i -> clamp_index n i = n.
Proof.
  intros H. unfold clamp_index.
  destruct (Z.ltb_spec i 0); lia.
Qed.

Lemma slice_inside (A : Type) (s : list A) (lo hi : Z) :
  0 <= lo <= hi -> hi <= len s ->
  slice s lo hi = firstn (Z.to_nat (hi - lo)) (skipn (Z.to_nat lo) s).
Proof.
  intros H1 H2. unfold slice.
  rewrite !clamp_index_id by lia. reflexivity.
Qed.

(** A slice that starts inside and would end past the end is truncated. *)
Lemma slice_truncated (A : Type) (s : list A) (lo hi : Z) :
  0 <= lo <= len s -> lo <= hi ->
  slice s lo hi = firstn (Z.to_nat (hi - lo)) (skipn (Z.to_nat lo) s).
Proof.
  intros H1 H2. unfold slice.
  rewrite (clamp_index_id (n := len s) (i := lo)) by lia.
  destruct (Z.le_gt_cases hi (len s)) as [Hle|Hgt].
  - rewrite clamp_index_id by lia. reflexivity.
  - rewrite clamp_index_over by lia.
    rewrite !firstn_all2; try reflexivity;
      rewrite length_skipn; unfold len in *; lia.
Qed.

Lemma slice_from_inside (A : Type) (s : list A) (lo : Z) :
  0 <= lo <= len s -> slice_from s lo = skipn (Z.to_nat lo) s.
Proof.
  intros H. unfold slice_from. rewrite slice_inside by lia.
  apply firstn_all2. rewrite length_skipn. unfold len in *. lia.
Qed.

Lemma slice_to_spec (A : Type) (s : list A) (hi : Z) :
  0 <= hi -> slice_to s hi = firstn (Z.to_nat hi) s.
Proof.
  intros H. unfold slice_to. pose proof (len_nonneg s).
  rewrite slice_truncated by lia.
  rewrite Z.sub_0_r. reflexivity.
Qed.

Lemma len_slice (A : Type) (s : list A) (lo hi : Z) :
  0 <= lo <= len s -> lo <= hi ->
  len (slice s lo hi) = Z.min (hi - lo) (len s - lo).
Proof.
  intros H1 H2. rewrite slice_truncated by assumption.
  rewrite len_firstn by lia. rewrite len_skipn by lia. reflexivity.
Qed.

Lemma firstn_len_app (A : Type) (s t : list A) :
  firstn (Z.to_nat (len s)) (s ++ t) = s.
Proof.
  unfold len. rewrite Nat2Z.id.
  rewrite firstn_app, Nat.sub_diag, firstn_all. cbn. apply app_nil_r.
Qed.

Lemma skipn_len_app (A : Type) (s t : list A) :
  skipn (Z.to_nat (len s)) (s ++ t) = t.
Proof.
  unfold len. rewrite Nat2Z.id.
  rewrite skipn_app, Nat.sub_diag, skipn_all. reflexivity.
Qed.

(* ===================================================================== *)
(** ** The decoder, case by case                                          *)
(* ===================================================================== *)

Ltac zbool :=
  repeat match goal with
  | |- context [?a <? ?b] => destruct (Z.ltb_spec a b); try lia
  | |- context [?a =? ?b] => destruct (Z.eqb_spec a b); try lia
  | |- context [?a >? ?b] =>
      rewrite (Z.gtb_ltb a b); destruct (Z.ltb_spec b a); try lia
  end.

Lemma parse_apdu_short (raw : bytes) :
  len raw < 4 -> parse_apdu raw = Raise (ApduParseError TooShort).
Proof. intros H. unfold parse_apdu. zbool. reflexivity. Qed.

Lemma parse_apdu_case1 (c i a b : byte) :
  parse_apdu [c; i; a; b] =
  Ok (mkApdu (int_of_byte c) (int_of_byte i) (int_of_byte a) (int_of_byte b)
             0 [] None).
Proof. reflexivity. Qed.

Lemma parse_apdu_case2 (c i a b e : byte) :
  parse_apdu [c; i; a; b; e] =
  Ok (mkApdu (int_of_byte c) (int_of_byte i) (int_of_byte a) (int_of_byte b)
             0 [] (Some (int_of_byte e))).
Proof. reflexivity. Qed.

(** The header and the Lc byte of a buffer of six bytes or more. *)
Lemma parse_apdu_long (c i a b l : byte) (rest : bytes) :
  rest <> [] ->
  parse_apdu (c :: i :: a :: b :: l :: rest) =
  let lc := int_of_byte l in
  if lc >? len rest then Raise (ApduParseError LcExceedsData)
  else
    let data := firstn (Z.to_nat lc) rest in
    match skipn (Z.to_nat lc) rest with
    | [] => Ok (mkApdu (int_of_byte c) (int_of_byte i) (int_of_byte a)
                       (int_of_byte b) lc data None)
    | [e] => Ok (mkApdu (int_of_byte c) (int_of_byte i) (int_of_byte a)
                        (int_of_byte b) lc data (Some (int_of_byte e)))
    | _ => Raise (ApduParseError TrailingBytes)
    end.
Proof.
  intros Hrest.
  set (raw := c :: i :: a :: b :: l :: rest).
  assert (Hlen : len raw = 5 + len rest)
    by (unfold raw; rewrite !len_cons; lia).
  assert (Hpos : 1 <= len rest).
  { destruct rest as [|x r]; [congruence|].
    rewrite len_cons. pose proof (len_nonneg r). lia. }
  pose proof (int_of_byte_range l) as Hl.
  unfold parse_apdu.
  change (byte_at raw 0) with (Ok (int_of_byte c)).
  change (byte_at raw 1) with (Ok (int_of_byte i)).
  change (byte_at raw 2) with (Ok (int_of_byte a)).
  change (byte_at raw 3) with (Ok (int_of_byte b)).
  change (byte_at raw 4) with (Ok (int_of_byte l)).
  cbn [bind]. cbv zeta.
  destruct (Z.ltb_spec (len raw) 4); [lia|].
  destruct (Z.eqb_spec (len raw) 4); [lia|].
  destruct (Z.eqb_spec (len raw) 5); [lia|].
  rewrite !Z.gtb_ltb. rewrite Hlen.
  destruct (Z.ltb_spec (5 + len rest) (5 + int_of_byte l));
    destruct (Z.ltb_spec (len rest) (int_of_byte l)); try lia;
    [reflexivity|].
  rewrite slice_from_inside by lia.
  rewrite slice_inside by lia.
  replace (5 + int_of_byte l - 5) with (int_of_byte l) by lia.
  rewrite Z2Nat.inj_add by lia.
  change (Z.to_nat 5) with 5%nat.
  rewrite (Nat.add_comm 5).
  rewrite <- skipn_skipn with (x := Z.to_nat (int_of_byte l)) (y := 5%nat).
  change (skipn 5 raw) with rest.
  destruct (skipn (Z.to_nat (int_of_byte l)) rest) as [|e [|e' r]].
  - reflexivity.
  - reflexivity.
  - rewrite !len_cons. pose proof (len_nonneg r). zbool. reflexivity.
Qed.

Lemma parse_apdu_lc_exceeds (c i a b l : byte) (rest : bytes) :
  rest <> [] -> len rest < int_of_byte l ->
  parse_apdu (c :: i :: a :: b :: l :: rest) =
  Raise (ApduParseError LcExceedsData).
Proof.
  intros Hrest Hlt. rewrite parse_apdu_long by assumption.
  cbv zeta. zbool. reflexivity.
Qed.

Lemma parse_apdu_body (c i a b l : byte) (dat rem : bytes) :
  dat ++ rem <> [] -> len dat = int_of_byte l ->
  parse_apdu (c :: i :: a :: b :: l :: dat ++ rem) =
  match rem with
  | [] => Ok (mkApdu (int_of_byte c) (int_of_byte i) (int_of_byte a)
                     (int_of_byte b) (int_of_byte l) dat None)
  | [e] => Ok (mkApdu (int_of_byte c) (int_of_byte i) (int_of_byte a)
                      (int_of_byte b) (int_of_byte l) dat
                      (Some (int_of_byte e)))
  | _ => Raise (ApduParseError TrailingBytes)
  end.
Proof.
  intros Hne Hlen. rewrite parse_apdu_long by assumption.
  cbv zeta. rewrite len_app, <- Hlen.
  pose proof (len_nonneg rem).
  zbool.
  rewrite firstn_len_app, skipn_len_app. reflexivity.
Qed.

(** C4.  For every raw byte buffer the decoder goes by the total length:
    fewer than 4 bytes is an error; 4 bytes give the header with [lc = 0],
    no data and no Le (Case 1); 5 bytes give [lc = 0], no data and the
    fifth byte as Le (Case 2); 6 bytes or more read Lc at offset 4 and
    take the next Lc bytes as data, an error when fewer remain; then no
    remaining byte gives no Le (Case 3), one remaining byte is Le
    (Case 4), and more than one is an error. *)
Theorem parse_apdu_by_length (raw : bytes) :
  (len raw < 4 -> parse_apdu raw = Raise (ApduParseError TooShort)) /\
  (len raw = 4 ->
     exists c i a b, raw = [c; i; a; b] /\
       parse_apdu raw =
       Ok (mkApdu (int_of_byte c) (int_of_byte i) (int_of_byte a)
                  (int_of_byte b) 0 [] None)) /\
  (len raw = 5 ->
     exists c i a b e, raw = [c; i; a; b; e] /\
       parse_apdu raw =
       Ok (mkApdu (int_of_byte c) (int_of_byte i) (int_of_byte a)
                  (int_of_byte b) 0 [] (Some (int_of_byte e)))) /\
  (6 <= len raw ->
     exists c i a b l rest, raw = c :: i :: a :: b :: l :: rest /\
       let hdr := mkApdu (int_of_byte c) (int_of_byte i) (int_of_byte a)
                         (int_of_byte b) (int_of_byte l) in
       let data := firstn (Z.to_nat (int_of_byte l)) rest in
       let remaining := skipn (Z.to_nat (int_of_byte l)) rest in
       (len rest < int_of_byte l ->
          parse_apdu raw = Raise (ApduParseError LcExceedsData)) /\
       (int_of_byte l <= len rest ->
          len data = int_of_byte l /\
          (len remaining = 0 -> parse_apdu raw = Ok (hdr data None)) /\
          (len remaining = 1 ->
             exists e, remaining = [e] /\
               parse_apdu raw = Ok (hdr data (Some (int_of_byte e)))) /\
          (1 < len remaining ->
             parse_apdu raw = Raise (ApduParseError TrailingBytes)))).
Proof.
  split; [apply parse_apdu_short|].
  destruct raw as [|c [|i [|a [|b [|l rest]]]]];
    rewrite ?len_cons, ?len_nil;
    try pose proof (len_nonneg rest) as Hr;
    (split; [intros H|split; intros H]); try lia.
  - exists c, i, a, b. split; [reflexivity|apply parse_apdu_case1].
  - assert (rest = []) by (apply len_zero_nil; lia). subst rest.
    exists c, i, a, b, l. split; [reflexivity|apply parse_apdu_case2].
  - assert (Hne : rest <> []).
    { intros ->. rewrite len_nil in H. lia. }
    exists c, i, a, b, l, rest. split; [reflexivity|].
    pose proof (int_of_byte_range l) as Hl.
    cbv zeta. split.
    + intros Hlt. apply parse_apdu_lc_exceeds; assumption.
    + intros Hle.
      rewrite parse_apdu_long by assumption. cbv zeta.
      rewrite Z.gtb_ltb.
      destruct (Z.ltb_spec (len rest) (int_of_byte l)); [lia|].
      split; [rewrite len_firstn by lia; lia|].
      destruct (skipn (Z.to_nat (int_of_byte l)) rest) as [|e [|e' r]].
      * split; [reflexivity|]. rewrite len_nil. split; intros; lia.
      * rewrite len_cons, len_nil.
        split; [intros; lia|]. split; [|intros; lia].
        intros _. exists e. split; reflexivity.
      * rewrite !len_cons. pose proof (len_nonneg r).
        split; [intros; lia|]. split; [intros; lia|]. reflexivity.
Qed.

Lemma parse_apdu_by_length_witness :
  6 <= len [x00; xa4; x00; x0c; x02; x3f; x00] /\
  parse_apdu [x00; xa4; x00; x0c; x02; x3f; x00] =
  Ok (mkApdu 0x00 0xA4 0x00 0x0C 2 [x3f; x00] None).
Proof.
  assert (H6 : 6 <= len [x00; xa4; x00; x0c; x02; x3f; x00])
    by (vm_compute; discriminate).
  split; [exact H6|].
  destruct (parse_apdu_by_length [x00; xa4; x00; x0c; x02; x3f; x00])
    as (_ & _ & _ & Hlong).
  destruct (Hlong H6) as (c & i & a & b & l & rest & Hraw & _ & Hfit).
  injection Hraw as <- <- <- <- <- <-.
  destruct (Hfit ltac:(vm_compute; discriminate)) as (_ & Hcase3 & _).
  apply Hcase3. reflexivity.
Defined.

(** The decoder yields well-formed commands only. *)
Lemma parse_apdu_valid (raw : bytes) (a : Apdu) :
  parse_apdu raw = Ok a -> valid_apdu a.
Proof.
  intros Hp.
  destruct raw as [|c [|i [|x [|y [|l rest]]]]];
    try (rewrite parse_apdu_short in Hp
           by (rewrite ?len_cons, ?len_nil; lia); discriminate).
  - rewrite parse_apdu_case1 in Hp. injection Hp as <-.
    pose proof (int_of_byte_range c). pose proof (int_of_byte_range i).
    pose proof (int_of_byte_range x). pose proof (int_of_byte_range y).
    unfold valid_apdu, is_u8. cbn [cla ins p1 p2 lc data le].
    rewrite len_nil. lia.
  - pose proof (int_of_byte_range c). pose proof (int_of_byte_range i).
    pose proof (int_of_byte_range x). pose proof (int_of_byte_range y).
    pose proof (int_of_byte_range l) as Hl.
    destruct rest as [|r0 rest'].
    + rewrite parse_apdu_case2 in Hp. injection Hp as <-.
      unfold valid_apdu, is_u8. cbn [cla ins p1 p2 lc data le].
      rewrite len_nil. lia.
    + rewrite parse_apdu_long in Hp by discriminate. cbv zeta in Hp.
      rewrite Z.gtb_ltb in Hp.
      destruct (Z.ltb_spec (len (r0 :: rest')) (int_of_byte l));
        [discriminate|].
      assert (Hd : len (firstn (Z.to_nat (int_of_byte l)) (r0 :: rest'))
                   = int_of_byte l)
        by (rewrite len_firstn by lia; lia).
      destruct (skipn (Z.to_nat (int_of_byte l)) (r0 :: rest'))
        as [|e [|e' r]]; try discriminate;
        injection Hp as <-; unfold valid_apdu, is_u8; cbn [cla ins p1 p2 lc data le];
        rewrite Hd; try pose proof (int_of_byte_range e); lia.
Qed.

(** The image of the encoder: a buffer that the encoding of a command
    produces (the header, then Lc and the data when there is data, then Le
    when it is present) decodes to that command, and encoding the decoded
    command again gives the buffer back byte for byte. *)
Theorem encode_decode_roundtrip (a : Apdu) :
  valid_apdu a ->
  exists a', parse_apdu (encode_apdu a) = Ok a' /\
             a' = a /\ encode_apdu a' = encode_apdu a.
Proof.
  intros (Hc & Hi & H1 & H2 & Hlc & Hmax & Hle).
  exists a. split; [|split; reflexivity].
  destruct a as [c i x y n d e]. unfold is_u8 in *. cbn in *.
  unfold encode_apdu, has_data. cbn [cla ins p1 p2 lc data le].
  pose proof (len_nonneg d) as Hd.
  rewrite Z.gtb_ltb. destruct (Z.ltb_spec 0 n) as [Hpos|Hzero].
  - cbn [app].
    rewrite parse_apdu_body.
    + rewrite !int_of_byte_of_int by lia.
      destruct e as [l|]; [|reflexivity].
      cbn. rewrite int_of_byte_of_int by (unfold is_u8 in Hle; lia).
      reflexivity.
    + destruct d; [rewrite len_nil in Hlc; lia|discriminate].
    + rewrite int_of_byte_of_int by lia. symmetry. exact Hlc.
  - assert (n = 0) by lia. subst n.
    assert (d = []) by (apply len_zero_nil; lia). subst d.
    destruct e as [l|]; cbn [app].
    + rewrite parse_apdu_case2.
      rewrite !int_of_byte_of_int by (unfold is_u8 in Hle; lia).
      reflexivity.
    + rewrite parse_apdu_case1.
      rewrite !int_of_byte_of_int by lia. reflexivity.
Qed.

Lemma encode_decode_roundtrip_witness :
  valid_apdu (mkApdu 0x00 0xA4 0x00 0x0C 2 [x3f; x00] (Some 0)) /\
  exists a', parse_apdu [x00; xa4; x00; x0c; x02; x3f; x00; x00] = Ok a' /\
             a' = mkApdu 0x00 0xA4 0x00 0x0C 2 [x3f; x00] (Some 0) /\
             encode_apdu a' = [x00; xa4; x00; x0c; x02; x3f; x00; x00].
Proof.
  assert (Hv : valid_apdu (mkApdu 0x00 0xA4 0x00 0x0C 2 [x3f; x00] (Some 0)))
    by (unfold valid_apdu, is_u8; cbn; repeat split; lia || reflexivity).
  split; [exact Hv|].
  exact (encode_decode_roundtrip Hv).
Defined.

(** Outside the encoder's image the round trip can fail: a buffer of six
    bytes whose Lc byte is zero decodes (as a command without data and
    with Le), and encoding that command gives five bytes. *)
Example zero_lc_not_reproduced :
  exists a, parse_apdu [x00; xb0; x00; x00; x00; x0a] = Ok a /\
            encode_apdu a = [x00; xb0; x00; x00; x0a].
Proof. eexists. split; reflexivity. Qed.

(* ===================================================================== *)
(** ** Leaf files                                                         *)
(* ===================================================================== *)

Lemma getitem_inside (A : Type) (s : list A) (i : Z) :
  0 <= i < len s -> exists a, getitem s i = Ok a.
Proof.
  intros H. unfold getitem.
  destruct (Z.ltb_spec i 0); [lia|].
  destruct (Z.ltb_spec i 0); [lia|].
  destruct (nth_error s (Z.to_nat i)) as [a|] eqn:E.
  - exists a. reflexivity.
  - apply nth_error_None in E. unfold len in H. lia.
Qed.

Lemma getitem_raises (A : Type) (s : list A) (i : Z) (e : exn) :
  getitem s i = Raise e -> e = IndexError.
Proof.
  unfold getitem.
  destruct (_ <? 0); [intros [= <-]; reflexivity|].
  destruct (nth_error _ _); [discriminate|intros [= <-]; reflexivity].
Qed.

(** [read_binary] raises nothing but [ValueError] and [IndexError]. *)
Lemma read_binary_cases (self : TransparentEF) (offset length : Z) :
  read_binary self offset length =
  if (offset <? 0) || (length <? 0) then Raise ValueError
  else if len (content self) <? offset then Raise IndexError
  else Ok (firstn (Z.to_nat length) (skipn (Z.to_nat offset) (content self))).
Proof.
  unfold read_binary. rewrite Z.gtb_ltb.
  destruct (Z.ltb_spec offset 0); [reflexivity|].
  destruct (Z.ltb_spec length 0); [reflexivity|]. cbn [orb].
  destruct (Z.ltb_spec (len (content self)) offset); [reflexivity|].
  rewrite slice_truncated by lia.
  replace (offset + length - offset) with length by lia. reflexivity.
Qed.

(** [read_record] raises nothing but [IndexError]. *)
Lemma read_record_raises (self : LinearFixedEF) (n : Z) (e : exn) :
  read_record self n = Raise e -> e = IndexError.
Proof.
  unfold read_record.
  destruct (n <=? 0); [intros [= <-]; reflexivity|].
  destruct (_ >=? _); [intros [= <-]; reflexivity|].
  apply getitem_raises.
Qed.

Lemma read_record_inside (self : LinearFixedEF) (n : Z) :
  1 <= n <= record_count self ->
  exists r, read_record self n = Ok r /\
            nth_error (records self) (Z.to_nat (n - 1)) = Some r.
Proof.
  intros H. unfold read_record, record_count in *.
  destruct (Z.leb_spec n 0); [lia|].
  rewrite Z.geb_leb.
  destruct (Z.leb_spec (len (records self)) (n - 1)); [lia|].
  unfold getitem.
  destruct (Z.ltb_spec (n - 1) 0); [lia|].
  destruct (Z.ltb_spec (n - 1) 0); [lia|].
  destruct (nth_error (records self) (Z.to_nat (n - 1))) as [r|] eqn:E.
  - exists r. split; reflexivity.
  - apply nth_error_None in E. unfold len in *. lia.
Qed.

Lemma read_record_outside (self : LinearFixedEF) (n : Z) :
  n < 1 \/ record_count self < n -> read_record self n = Raise IndexError.
Proof.
  intros H. unfold read_record, record_count in *.
  destruct (Z.leb_spec n 0); [reflexivity|].
  rewrite Z.geb_leb.
  destruct (Z.leb_spec (len (records self)) (n - 1)); [reflexivity|lia].
Qed.

(* ===================================================================== *)
(** ** Dispatch and the handlers                                          *)
(* ===================================================================== *)

Lemma dispatch_select (ctx : CardContext) (apdu : Apdu) :
  ins apdu = INS_SELECT_FILE -> dispatch ctx apdu = handle_select ctx apdu.
Proof. intros H. unfold dispatch. rewrite H. reflexivity. Qed.

Lemma dispatch_read_binary (ctx : CardContext) (apdu : Apdu) :
  ins apdu = INS_READ_BINARY ->
  dispatch ctx apdu = handle_read_binary ctx apdu.
Proof. intros H. unfold dispatch. rewrite H. reflexivity. Qed.

Lemma dispatch_read_record (ctx : CardContext) (apdu : Apdu) :
  ins apdu = INS_READ_RECORD ->
  dispatch ctx apdu = handle_read_record ctx apdu.
Proof. intros H. unfold dispatch. rewrite H. reflexivity. Qed.

Lemma dispatch_unmapped (ctx : CardContext) (apdu : Apdu) :
  ins apdu <> INS_SELECT_FILE -> ins apdu <> INS_READ_BINARY ->
  ins apdu <> INS_READ_RECORD ->
  dict_get HANDLERS (ins apdu) = None /\
  dispatch ctx apdu = (Ok SW_INS_NOT_SUPPORTED, ctx).
Proof.
  intros H1 H2 H3. unfold dispatch.
  assert (E : dict_get HANDLERS (ins apdu) = None).
  { unfold HANDLERS. cbn [dict_get].
    destruct (Z.eqb_spec (ins apdu) INS_SELECT_FILE); [contradiction|].
    destruct (Z.eqb_spec (ins apdu) INS_READ_BINARY); [contradiction|].
    destruct (Z.eqb_spec (ins apdu) INS_READ_RECORD); [contradiction|].
    reflexivity. }
  rewrite E. split; reflexivity.
Qed.

(** [handle_select] by the shape of the data field. *)
Lemma handle_select_cases (ctx : CardContext) (apdu : Apdu) :
  handle_select ctx apdu =
  if lc apdu =? 0 then (Ok SW_WRONG_LENGTH, ctx)
  else
    match data apdu with
    | [] => (Ok SW_WRONG_LENGTH, ctx)
    | [d0; d1] =>
        if fid_of_bytes d0 d1 =? fid_of_DF (mf_root ctx)
        then (Ok SW_SUCCESS, reset_to_mf ctx)
        else
          match find (current_df ctx) (fid_of_bytes d0 d1) with
          | Some n => (Ok SW_SUCCESS, select_node ctx n)
          | None =>
              match find (mf_root ctx) (fid_of_bytes d0 d1) with
              | Some n => (Ok SW_SUCCESS, select_node ctx n)
              | None => (Ok SW_FILE_NOT_FOUND, ctx)
              end
          end
    | _ => (Ok SW_FUNC_NOT_SUPPORTED, ctx)
    end.
Proof.
  unfold handle_select.
  destruct (lc apdu =? 0); [reflexivity|]. cbn [orb].
  destruct (data apdu) as [|d0 [|d1 [|d2 r]]].
  - reflexivity.
  - reflexivity.
  - change (len [d0; d1] =? 0) with false.
    change (len [d0; d1] =? 2) with true.
    change (byte_at [d0; d1] 0) with (Ok (int_of_byte d0)).
    change (byte_at [d0; d1] 1) with (Ok (int_of_byte d1)).
    cbn [negb bind]. fold (fid_of_bytes d0 d1).
    unfold find_under_current_df, find_anywhere.
    destruct (_ =? _); [reflexivity|].
    destruct (find (current_df ctx) _); [reflexivity|].
    destruct (find (mf_root ctx) _); reflexivity.
  - rewrite !len_cons. pose proof (len_nonneg r). zbool. reflexivity.
Qed.

Lemma bare_status (sw : bytes) (ctx : CardContext) :
  In sw returned_statuses -> status_response (Ok sw, ctx).
Proof. intros H. exists [], sw, ctx. split; [reflexivity|exact H]. Qed.

Lemma data_status (d : bytes) (ctx : CardContext) :
  status_response (Ok (d ++ SW_SUCCESS), ctx).
Proof.
  exists d, SW_SUCCESS, ctx. split; [reflexivity|]. cbn. auto.
Qed.

Ltac status_in := apply bare_status; cbn; tauto.

Lemma handle_select_response (ctx : CardContext) (apdu : Apdu) :
  status_response (handle_select ctx apdu).
Proof.
  rewrite handle_select_cases.
  destruct (lc apdu =? 0); [status_in|].
  destruct (data apdu) as [|d0 [|d1 [|d2 r]]]; try status_in.
  destruct (_ =? _); [status_in|].
  destruct (find (current_df ctx) _); [status_in|].
  destruct (find (mf_root ctx) _); status_in.
Qed.

Lemma handle_read_binary_response (ctx : CardContext) (apdu : Apdu) :
  status_response (handle_read_binary ctx apdu).
Proof.
  unfold handle_read_binary.
  destruct (current_file ctx) as [d|t|l]; try status_in.
  destruct (le apdu) as [l|]; [|status_in].
  cbv zeta. rewrite read_binary_cases.
  destruct (_ || _); [status_in|].
  destruct (_ <? _); [status_in|apply data_status].
Qed.

Lemma handle_read_record_response (ctx : CardContext) (apdu : Apdu) :
  status_response (handle_read_record ctx apdu).
Proof.
  unfold handle_read_record.
  destruct (current_file ctx) as [d|t|l]; try status_in.
  cbv zeta.
  destruct (negb _); [status_in|].
  destruct (p1 apdu =? 0); [status_in|].
  destruct (read_record l (p1 apdu)) as [r|e] eqn:E.
  - apply data_status.
  - apply read_record_raises in E. subst e. status_in.
Qed.

Lemma dispatch_response (ctx : CardContext) (apdu : Apdu) :
  status_response (dispatch ctx apdu).
Proof.
  destruct (Z.eq_dec (ins apdu) INS_SELECT_FILE) as [H1|H1];
    [rewrite dispatch_select by exact H1; apply handle_select_response|].
  destruct (Z.eq_dec (ins apdu) INS_READ_BINARY) as [H2|H2];
    [rewrite dispatch_read_binary by exact H2;
     apply handle_read_binary_response|].
  destruct (Z.eq_dec (ins apdu) INS_READ_RECORD) as [H3|H3];
    [rewrite dispatch_read_record by exact H3;
     apply handle_read_record_response|].
  destruct (dispatch_unmapped ctx apdu H1 H2 H3) as [_ ->]. status_in.
Qed.

Lemma returned_in_vocabulary (sw : bytes) :
  In sw returned_statuses -> In sw status_vocabulary /\ len sw = 2.
Proof.
  cbn. intros H.
  repeat (destruct H as [<-|H]; [split; [tauto|reflexivity]|]).
  destruct H.
Qed.

Lemma returned_not_cla (sw : bytes) :
  In sw returned_statuses -> sw <> SW_CLA_NOT_SUPPORTED.
Proof.
  cbn. intros H.
  repeat (destruct H as [<-|H]; [discriminate|]).
  destruct H.
Qed.

(* ===================================================================== *)
(** ** READ BINARY                                                        *)
(* ===================================================================== *)

(** C3, as the code has it.  [read_binary] fails with [ValueError] when
    the offset is negative and, for an offset that is not, when the length
    is negative; with both non-negative it fails with [IndexError] when
    the offset is past the end of the content; otherwise it returns the
    bytes from [offset] on, at most [length] of them and fewer when the
    content ends first, without an error.  Dispatching READ BINARY on a
    transparent current file with Le present and the offset [p1p2] equal
    to the content length answers with no data and 90 00; with the offset
    past the content length it answers 6B 00. *)
Theorem read_binary_spec (self : TransparentEF) :
  (forall offset length,
     offset < 0 -> read_binary self offset length = Raise ValueError) /\
  (forall offset length,
     0 <= offset -> length < 0 ->
     read_binary self offset length = Raise ValueError) /\
  (forall offset length,
     0 <= length -> len (content self) < offset ->
     read_binary self offset length = Raise IndexError) /\
  (forall offset length,
     0 <= offset <= len (content self) -> 0 <= length ->
     exists d,
       read_binary self offset length = Ok d /\
       d = firstn (Z.to_nat length) (skipn (Z.to_nat offset) (content self)) /\
       len d = Z.min length (len (content self) - offset)) /\
  (forall ctx apdu l,
     current_file ctx = NodeTransparentEF self ->
     ins apdu = INS_READ_BINARY -> le apdu = Some l ->
     (p1p2 apdu = len (content self) -> 0 <= l ->
        dispatch ctx apdu = (Ok ([] ++ SW_SUCCESS), ctx)) /\
     (len (content self) < p1p2 apdu ->
        dispatch ctx apdu = (Ok SW_WRONG_P1P2, ctx))).
Proof.
  pose proof (len_nonneg (content self)) as Hlen.
  split; [|split; [|split; [|split]]].
  - intros offset length Ho. rewrite read_binary_cases.
    destruct (Z.ltb_spec offset 0); [reflexivity|lia].
  - intros offset length Ho Hl. rewrite read_binary_cases.
    destruct (Z.ltb_spec length 0); [|lia].
    rewrite orb_true_r. reflexivity.
  - intros offset length Hl Ho. rewrite read_binary_cases.
    destruct (Z.ltb_spec offset 0); [lia|].
    destruct (Z.ltb_spec length 0); [lia|]. cbn [orb].
    destruct (Z.ltb_spec (len (content self)) offset); [reflexivity|lia].
  - intros offset length Ho Hl. rewrite read_binary_cases.
    destruct (Z.ltb_spec offset 0); [lia|].
    destruct (Z.ltb_spec length 0); [lia|]. cbn [orb].
    destruct (Z.ltb_spec (len (content self)) offset); [lia|].
    eexists. split; [reflexivity|]. split; [reflexivity|].
    rewrite len_firstn by lia. rewrite len_skipn by lia. reflexivity.
  - intros ctx apdu l Hcur Hins Hle.
    rewrite dispatch_read_binary by assumption.
    unfold handle_read_binary. rewrite Hcur, Hle. cbv zeta.
    rewrite read_binary_cases.
    split.
    + intros Hoff Hl. rewrite Hoff.
      assert (Hlen' : 0 <= (if l =? 0 then 256 else l))
        by (destruct (l =? 0); lia).
      destruct (Z.ltb_spec (len (content self)) 0); [lia|].
      destruct (Z.ltb_spec (if l =? 0 then 256 else l) 0); [lia|].
      cbn [orb]. rewrite Z.ltb_irrefl.
      rewrite skipn_all2 by (unfold len; lia).
      rewrite firstn_nil. reflexivity.
    + intros Hoff.
      destruct (_ || _); [reflexivity|].
      destruct (Z.ltb_spec (len (content self)) (p1p2 apdu));
        [reflexivity|lia].
Qed.

Lemma read_binary_spec_witness :
  dispatch (select_node (from_mf MF_sample) (NodeTransparentEF EF_DEEP))
           (mkApdu 0x00 0xB0 0x00 0x04 0 [] (Some 0x0A))
  = (Ok SW_SUCCESS,
     select_node (from_mf MF_sample) (NodeTransparentEF EF_DEEP)) /\
  dispatch (select_node (from_mf MF_sample) (NodeTransparentEF EF_DEEP))
           (mkApdu 0x00 0xB0 0x00 0x05 0 [] (Some 0x0A))
  = (Ok SW_WRONG_P1P2,
     select_node (from_mf MF_sample) (NodeTransparentEF EF_DEEP)) /\
  read_binary EF_DEEP 2 10 = Ok [x03; x04].
Proof.
  destruct (read_binary_spec EF_DEEP) as (_ & _ & _ & Hin & Hdisp).
  split; [|split].
  - apply (Hdisp _ (mkApdu 0x00 0xB0 0x00 0x04 0 [] (Some 0x0A)) 0x0A);
      try reflexivity. lia.
  - apply (Hdisp _ (mkApdu 0x00 0xB0 0x00 0x05 0 [] (Some 0x0A)) 0x0A);
      reflexivity.
  - assert (Hoff : 0 <= 2 <= len (content EF_DEEP))
      by (change (len (content EF_DEEP)) with 4; lia).
    assert (Hlen : 0 <= 10) by lia.
    destruct (Hin 2 10 Hoff Hlen) as (d & -> & -> & _).
    reflexivity.
Defined.

(** C3 as the specification words it does not hold: it has a negative
    offset fail with the out-of-range error, the one raised for an offset
    past the end ([IndexError]); the code raises [ValueError] there, the
    failure of a negative length and not that of an offset past the end.
    An offset past the end together with a negative length fails with
    [ValueError] too. *)
Lemma read_binary_negative_offset_is_value_error :
  read_binary EF_DEEP (-1) 0 = Raise ValueError /\
  read_binary EF_DEEP (-1) 0 <> Raise IndexError /\
  read_binary EF_DEEP (-1) 0 = read_binary EF_DEEP 0 (-1) /\
  read_binary EF_DEEP (-1) 0 <> read_binary EF_DEEP 5 0 /\
  read_binary EF_DEEP 9 (-1) = Raise ValueError /\
  read_binary EF_DEEP 9 (-1) <> Raise IndexError.
Proof. repeat split; (reflexivity || discriminate). Qed.

(* ===================================================================== *)
(** ** READ RECORD                                                        *)
(* ===================================================================== *)

(** C8.  With a linear-fixed record file current and absolute access mode,
    READ RECORD of record number 0 and of record number [record_count + 1]
    both fail and with different status words: 6B 00 for number 0, 6A 83
    for the number past the record count. *)
Theorem read_record_bounds_statuses
  (ctx : CardContext) (apdu : Apdu) (current : LinearFixedEF) :
  current_file ctx = NodeLinearFixedEF current ->
  ins apdu = INS_READ_RECORD ->
  Z.land (p2 apdu) 0x07 = 0x04 ->
  (p1 apdu = 0 ->
     read_record current (p1 apdu) = Raise IndexError /\
     dispatch ctx apdu = (Ok SW_WRONG_P1P2, ctx)) /\
  (p1 apdu = record_count current + 1 ->
     read_record current (p1 apdu) = Raise IndexError /\
     dispatch ctx apdu = (Ok SW_RECORD_NOT_FOUND, ctx)) /\
  SW_WRONG_P1P2 <> SW_RECORD_NOT_FOUND /\
  SW_WRONG_P1P2 <> SW_SUCCESS /\ SW_RECORD_NOT_FOUND <> SW_SUCCESS.
Proof.
  intros Hcur Hins Hmode.
  rewrite dispatch_read_record by assumption.
  unfold handle_read_record. rewrite Hcur. cbv zeta. rewrite Hmode.
  change (negb (0x04 =? 0x04)) with false. cbv iota.
  split; [|split; [|repeat split; discriminate]].
  - intros H0. rewrite read_record_outside by lia.
    rewrite H0. split; reflexivity.
  - intros Hn.
    pose proof (len_nonneg (records current)) as Hr.
    unfold record_count in Hn.
    rewrite read_record_outside by (unfold record_count; lia).
    destruct (Z.eqb_spec (p1 apdu) 0); [lia|]. split; reflexivity.
Qed.

Lemma read_record_bounds_statuses_witness :
  dispatch (select_node (from_mf MF_sample) (NodeLinearFixedEF EF_REC))
           (mkApdu 0x00 0xB2 0 0x04 0 [] None)
  = (Ok SW_WRONG_P1P2,
     select_node (from_mf MF_sample) (NodeLinearFixedEF EF_REC)) /\
  dispatch (select_node (from_mf MF_sample) (NodeLinearFixedEF EF_REC))
           (mkApdu 0x00 0xB2 3 0x04 0 [] None)
  = (Ok SW_RECORD_NOT_FOUND,
     select_node (from_mf MF_sample) (NodeLinearFixedEF EF_REC)).
Proof.
  split.
  - refine (proj2 (proj1 (@read_record_bounds_statuses
             (select_node (from_mf MF_sample) (NodeLinearFixedEF EF_REC))
             (mkApdu 0x00 0xB2 0 0x04 0 [] None) EF_REC
             eq_refl eq_refl eq_refl) eq_refl)).
  - refine (proj2 (proj1 (proj2 (@read_record_bounds_statuses
             (select_node (from_mf MF_sample) (NodeLinearFixedEF EF_REC))
             (mkApdu 0x00 0xB2 3 0x04 0 [] None) EF_REC
             eq_refl eq_refl eq_refl)) eq_refl)).
Defined.

(* ===================================================================== *)
(** ** The dispatcher                                                     *)
(* ===================================================================== *)

(** C5.  For every command and every card context, [dispatch] does not
    raise: it returns a byte string that ends in two bytes which are a
    status word of the vocabulary (so it has at least two bytes).  When
    the instruction is none of 0xA4, 0xB0, 0xB2, no handler is found and
    the response is exactly 6D 00, with the context untouched, whatever
    the other fields hold. *)
Theorem dispatch_total (ctx : CardContext) (apdu : Apdu) :
  (exists body sw ctx',
     dispatch ctx apdu = (Ok (body ++ sw), ctx') /\
     In sw status_vocabulary /\ len sw = 2 /\
     2 <= len (body ++ sw)) /\
  (ins apdu <> 0xA4 -> ins apdu <> 0xB0 -> ins apdu <> 0xB2 ->
     dict_get HANDLERS (ins apdu) = None /\
     dispatch ctx apdu = (Ok [x6d; x00], ctx)).
Proof.
  split.
  - destruct (dispatch_response ctx apdu) as (body & sw & ctx' & E & Hin).
    destruct (returned_in_vocabulary Hin) as [Hv Hl].
    exists body, sw, ctx'. repeat split; try assumption.
    rewrite len_app, Hl. pose proof (len_nonneg body). lia.
  - intros H1 H2 H3. apply dispatch_unmapped; assumption.
Qed.

Lemma dispatch_total_witness :
  dispatch (from_mf MF_sample) (mkApdu 0x80 0x99 0x12 0x34 1 [xff] (Some 7))
  = (Ok [x6d; x00], from_mf MF_sample).
Proof.
  refine (proj2 (proj2 (dispatch_total (from_mf MF_sample)
            (mkApdu 0x80 0x99 0x12 0x34 1 [xff] (Some 7))) _ _ _));
    cbn; discriminate.
Defined.

(** C10.  The class byte plays no part: a command and the same command
    with any other class byte get the same response and leave the same
    context behind, from the same context; and no response ends in the
    class-not-supported status 6E 00. *)
Theorem dispatch_ignores_cla (ctx : CardContext) (apdu : Apdu) (c : Z) :
  dispatch ctx (with_cla apdu c) = dispatch ctx apdu /\
  exists body sw ctx',
    dispatch ctx apdu = (Ok (body ++ sw), ctx') /\
    len sw = 2 /\ sw <> SW_CLA_NOT_SUPPORTED.
Proof.
  split.
  - unfold dispatch, HANDLERS. cbn [dict_get ins with_cla].
    destruct (ins apdu =? INS_SELECT_FILE); [reflexivity|].
    destruct (ins apdu =? INS_READ_BINARY); [reflexivity|].
    destruct (ins apdu =? INS_READ_RECORD); reflexivity.
  - destruct (dispatch_response ctx apdu) as (body & sw & ctx' & E & Hin).
    exists body, sw, ctx'. split; [exact E|].
    split; [apply returned_in_vocabulary; exact Hin|].
    apply returned_not_cla; exact Hin.
Qed.

(* ===================================================================== *)
(** ** SELECT                                                             *)
(* ===================================================================== *)

(** C6.  From any context, a SELECT whose two data bytes are the fid of
    the root makes the root both the current container and the current
    file, and answers 90 00. *)
Theorem select_root_resets
  (ctx : CardContext) (apdu : Apdu) (d0 d1 : byte) :
  ins apdu = INS_SELECT_FILE ->
  lc apdu <> 0 -> data apdu = [d0; d1] ->
  fid_of_bytes d0 d1 = fid_of_DF (mf_root ctx) ->
  exists ctx',
    dispatch ctx apdu = (Ok SW_SUCCESS, ctx') /\
    mf_root ctx' = mf_root ctx /\
    current_df ctx' = mf_root ctx /\
    current_file ctx' = NodeDF (mf_root ctx).
Proof.
  intros Hins Hlc Hdata Hfid.
  exists (reset_to_mf ctx).
  rewrite dispatch_select by assumption.
  rewrite handle_select_cases, Hdata, Hfid, Z.eqb_refl.
  destruct (Z.eqb_spec (lc apdu) 0); [contradiction|].
  repeat split.
Qed.

Lemma select_root_resets_witness :
  exists ctx',
    dispatch (select_node (select_node (from_mf MF_sample) (NodeDF DF_B))
                          (NodeLinearFixedEF EF_REC))
             (mkApdu 0x00 0xA4 0x00 0x0C 2 [x3f; x00] None)
    = (Ok SW_SUCCESS, ctx') /\
    mf_root ctx' = MF_sample /\
    current_df ctx' = MF_sample /\
    current_file ctx' = NodeDF MF_sample.
Proof.
  exact (@select_root_resets
           (select_node (select_node (from_mf MF_sample) (NodeDF DF_B))
                        (NodeLinearFixedEF EF_REC))
           (mkApdu 0x00 0xA4 0x00 0x0C 2 [x3f; x00] None) x3f x00
           eq_refl ltac:(discriminate) eq_refl eq_refl).
Defined.

(** C9.  Whenever [handle_select] answers anything but success, that is
    67 00 for a command without data, 6A 81 for data that is not two
    bytes long, or 6A 82 for a fid found neither under the current
    container nor from the root, the context after the call is the
    context before it. *)
Theorem select_failure_keeps_context
  (ctx ctx' : CardContext) (apdu : Apdu) (r : result bytes) :
  handle_select ctx apdu = (r, ctx') ->
  r <> Ok SW_SUCCESS ->
  ctx' = ctx /\
  current_df ctx' = current_df ctx /\ current_file ctx' = current_file ctx /\
  ((r = Ok SW_WRONG_LENGTH /\ (lc apdu = 0 \/ data apdu = [])) \/
   (r = Ok SW_FUNC_NOT_SUPPORTED /\ len (data apdu) <> 2) \/
   (r = Ok SW_FILE_NOT_FOUND /\
    exists d0 d1, data apdu = [d0; d1] /\
      find_under_current_df ctx (fid_of_bytes d0 d1) = None /\
      find_anywhere ctx (fid_of_bytes d0 d1) = None)).
Proof.
  rewrite handle_select_cases. intros E Hr.
  assert (Hgoal : ctx' = ctx /\
    ((r = Ok SW_WRONG_LENGTH /\ (lc apdu = 0 \/ data apdu = [])) \/
     (r = Ok SW_FUNC_NOT_SUPPORTED /\ len (data apdu) <> 2) \/
     (r = Ok SW_FILE_NOT_FOUND /\
      exists d0 d1, data apdu = [d0; d1] /\
        find_under_current_df ctx (fid_of_bytes d0 d1) = None /\
        find_anywhere ctx (fid_of_bytes d0 d1) = None))).
  { destruct (Z.eqb_spec (lc apdu) 0) as [Hz|Hnz].
    { injection E as <- <-. split; [reflexivity|]. left. tauto. }
    destruct (data apdu) as [|d0 [|d1 [|d2 rest]]] eqn:Hd.
    - injection E as <- <-. split; [reflexivity|]. left. tauto.
    - injection E as <- <-. split; [reflexivity|]. right; left.
      split; [reflexivity|]. change (len [d0]) with 1. lia.
    - destruct (_ =? _); [injection E as <- <-; congruence|].
      destruct (find (current_df ctx) (fid_of_bytes d0 d1)) eqn:Hrel;
        [injection E as <- <-; congruence|].
      destruct (find (mf_root ctx) (fid_of_bytes d0 d1)) eqn:Hglob;
        [injection E as <- <-; congruence|].
      injection E as <- <-. split; [reflexivity|]. right; right.
      split; [reflexivity|]. exists d0, d1.
      split; [reflexivity|]. split; assumption.
    - injection E as <- <-. split; [reflexivity|]. right; left.
      split; [reflexivity|].
      rewrite !len_cons. pose proof (len_nonneg rest). lia. }
  destruct Hgoal as [-> Hcases]. repeat split. exact Hcases.
Qed.

Lemma select_failure_keeps_context_witness :
  handle_select (select_node (from_mf MF_sample) (NodeDF DF_B))
                (mkApdu 0x00 0xA4 0x00 0x0C 2 [x12; x34] None)
  = (Ok SW_FILE_NOT_FOUND, select_node (from_mf MF_sample) (NodeDF DF_B)) /\
  current_df (select_node (from_mf MF_sample) (NodeDF DF_B)) = DF_B.
Proof.
  split; [|reflexivity].
  assert (E : handle_select (select_node (from_mf MF_sample) (NodeDF DF_B))
                (mkApdu 0x00 0xA4 0x00 0x0C 2 [x12; x34] None)
              = (Ok SW_FILE_NOT_FOUND,
                 select_node (from_mf MF_sample) (NodeDF DF_B)))
    by reflexivity.
  assert (Hne : Ok SW_FILE_NOT_FOUND <> Ok SW_SUCCESS) by discriminate.
  destruct (select_failure_keeps_context _ _ E Hne) as (_ & _ & _ & _).
  exact E.
Defined.

(* ===================================================================== *)
(** ** The file tree                                                      *)
(* ===================================================================== *)

(** Induction over a container and the containers below it. *)
Lemma DF_deep_ind (P : DF -> Prop) :
  (forall m f n cs,
     (forall k d, In (k, NodeDF d) cs -> P d) -> P (mkDF m f n cs)) ->
  forall self, P self.
Proof.
  intros step. fix IH 1. intros [m f n cs]. apply step.
  induction cs as [|[k c] rest IHrest]; intros k0 d Hin.
  - destruct Hin.
  - destruct Hin as [E|Hin].
    + destruct c as [d'|t|l]; try discriminate.
      replace d with d' by congruence. apply IH.
    + exact (IHrest k0 d Hin).
Qed.

Lemma dict_get_In (V : Type) (d : dict V) (k : Z) (v : V) :
  dict_get d k = Some v -> In (k, v) d.
Proof.
  induction d as [|[k' v'] rest IH]; cbn; [discriminate|].
  destruct (Z.eqb_spec k k') as [->|Hne].
  - intros [= ->]. left. reflexivity.
  - intros H. right. apply IH. exact H.
Qed.

Lemma In_dict_get (V : Type) (d : dict V) (k : Z) (v : V) :
  In (k, v) d -> exists v', dict_get d k = Some v'.
Proof.
  induction d as [|[k' v'] rest IH]; cbn; [intros []|].
  intros [E|Hin].
  - injection E as -> ->. rewrite Z.eqb_refl. eauto.
  - destruct (k =? k'); eauto.
Qed.

Lemma dict_get_app (V : Type) (d e : dict V) (k : Z) :
  dict_get (d ++ e) k =
  match dict_get d k with Some v => Some v | None => dict_get e k end.
Proof.
  induction d as [|[k' v'] rest IH]; cbn; [reflexivity|].
  destruct (k =? k'); [reflexivity|exact IH].
Qed.

(** What the loop of [find] returns, for any search of a child. *)
Section FirstHit.

Variable search : DF -> option FileNode.

Lemma first_hit_app (l r : dict FileNode) :
  first_hit search (l ++ r) =
  match first_hit search l with
  | Some hit => Some hit
  | None => first_hit search r
  end.
Proof.
  induction l as [|[k c] rest IH]; cbn; [reflexivity|].
  destruct c as [d|t|e]; try exact IH.
  destruct (search d); [reflexivity|exact IH].
Qed.

Lemma first_hit_none (cs : dict FileNode) :
  (forall k d, In (k, NodeDF d) cs -> search d = None) ->
  first_hit search cs = None.
Proof.
  induction cs as [|[k c] rest IH]; intros H; cbn; [reflexivity|].
  assert (Hrest : first_hit search rest = None)
    by (apply IH; intros k' d' Hin; apply (H k'); right; exact Hin).
  destruct c as [d|t|e]; try exact Hrest.
  rewrite (H k d) by (left; reflexivity). exact Hrest.
Qed.

Lemma first_hit_some (cs : dict FileNode) (hit : FileNode) :
  first_hit search cs = Some hit ->
  exists k d, In (k, NodeDF d) cs /\ search d = Some hit.
Proof.
  induction cs as [|[k c] rest IH]; cbn; [discriminate|].
  intros H.
  assert (Hrest : first_hit search rest = Some hit ->
                  exists k0 d, In ((k0, NodeDF d)) ((k, c) :: rest) /\
                               search d = Some hit).
  { intros H'. destruct (IH H') as (k0 & d & Hin & Hs).
    exists k0, d. split; [right; exact Hin|exact Hs]. }
  destruct c as [d|t|e]; try (apply Hrest; exact H).
  destruct (search d) as [h|] eqn:Hs; [|apply Hrest; exact H].
  injection H as ->. exists k, d. split; [left; reflexivity|exact Hs].
Qed.

Lemma first_hit_exists (cs : dict FileNode) (k : Z) (d : DF)
      (hit : FileNode) :
  In (k, NodeDF d) cs -> search d = Some hit ->
  exists hit', first_hit search cs = Some hit'.
Proof.
  intros Hin Hs.
  destruct (first_hit search cs) as [h|] eqn:E; [eauto|].
  exfalso.
  apply in_split in Hin. destruct Hin as (l & r & ->).
  rewrite first_hit_app in E.
  destruct (first_hit search l); [discriminate|].
  cbn in E. rewrite Hs in E. discriminate.
Qed.

End FirstHit.

Lemma find_unfold (self : DF) (f : Z) :
  find self f =
  if f =? fid_of_DF self then Some (NodeDF self)
  else match get_child self f with
       | Some c => Some c
       | None => first_hit (fun child => find child f) (children self)
       end.
Proof. destruct self as [m sf n cs]. reflexivity. Qed.

(** The children of a well-formed container sit under their own fids and
    are well formed. *)
Lemma wf_DF_children (self : DF) :
  wf_DF self = true ->
  forall k c, In (k, c) (children self) ->
    k = fid c /\ match c with NodeDF d => wf_DF d = true | _ => True end.
Proof.
  destruct self as [m f n cs]. cbn [wf_DF children].
  intros H. apply andb_prop in H. destruct H as [_ H].
  induction cs as [|[k' c'] rest IH]; intros k c Hin; [destruct Hin|].
  apply andb_prop in H. destruct H as [H Hrest].
  apply andb_prop in H. destruct H as [Hk Hc].
  destruct Hin as [E|Hin]; [|exact (IH Hrest k c Hin)].
  injection E as <- <-. split; [apply Z.eqb_eq; exact Hk|].
  destruct c'; [exact Hc|exact I|exact I].
Qed.

Lemma nodes_at_depth_child (d : nat) (self : DF) (k : Z) (c n : FileNode) :
  In (k, c) (children self) -> In n (nodes_at_depth d c) ->
  In n (nodes_at_depth (S d) (NodeDF self)).
Proof.
  intros Hc Hn. cbn [nodes_at_depth]. apply in_flat_map.
  exists (k, c). split; assumption.
Qed.

(** What [find] returns is a node of the subtree. *)
Lemma find_in_subtree (self : DF) :
  forall f n, find self f = Some n ->
    exists d, In n (nodes_at_depth d (NodeDF self)).
Proof.
  induction self as [m sf nm cs IH] using DF_deep_ind.
  intros f n. rewrite find_unfold. unfold get_child. cbn [fid_of_DF children].
  destruct (f =? sf).
  - intros [= <-]. exists 0%nat. left. reflexivity.
  - destruct (dict_get cs f) as [c|] eqn:Hget.
    + intros E. injection E as E. subst c. exists 1%nat.
      apply nodes_at_depth_child with (k := f) (c := n).
      * apply dict_get_In. exact Hget.
      * left. reflexivity.
    + intros Hhit. apply first_hit_some in Hhit.
      destruct Hhit as (k & d0 & Hin & Hfind).
      destruct (IH k d0 Hin f n Hfind) as (d & Hd).
      exists (S d). apply nodes_at_depth_child with (k := k) (c := NodeDF d0);
        assumption.
Qed.

(** In a well-formed tree it carries the fid that was asked for. *)
Lemma find_fid (self : DF) :
  wf_DF self = true ->
  forall f n, find self f = Some n -> fid n = f.
Proof.
  induction self as [m sf nm cs IH] using DF_deep_ind.
  intros Hwf f n. rewrite find_unfold. unfold get_child. cbn [fid_of_DF children].
  pose proof (wf_DF_children _ Hwf) as Hch. cbn [children] in Hch.
  destruct (Z.eqb_spec f sf) as [->|Hne].
  - intros [= <-]. reflexivity.
  - destruct (dict_get cs f) as [c|] eqn:Hget.
    + intros E. injection E as E. subst c. apply dict_get_In in Hget.
      destruct (Hch f n Hget) as [Hk _]. symmetry. exact Hk.
    + intros Hhit. apply first_hit_some in Hhit.
      destruct Hhit as (k & d0 & Hin & Hfind).
      destruct (Hch k (NodeDF d0) Hin) as [_ Hwf0].
      exact (IH k d0 Hin Hwf0 f n Hfind).
Qed.

(** In a well-formed tree a fid carried by some node of the subtree is
    found. *)
Lemma find_complete (self : DF) :
  wf_DF self = true ->
  forall d f m, In m (nodes_at_depth d (NodeDF self)) -> fid m = f ->
    exists n, find self f = Some n.
Proof.
  induction self as [m sf nm cs IH] using DF_deep_ind.
  intros Hwf d f x Hx Hf. rewrite find_unfold.
  unfold get_child. cbn [fid_of_DF children].
  pose proof (wf_DF_children _ Hwf) as Hch. cbn [children] in Hch.
  destruct (Z.eqb_spec f sf) as [->|Hne]; [eauto|].
  destruct (dict_get cs f) as [c|] eqn:Hget; [eauto|].
  destruct d as [|d'].
  - destruct Hx as [<-|[]]. cbn in Hf. congruence.
  - cbn [nodes_at_depth children] in Hx. apply in_flat_map in Hx.
    destruct Hx as ([k c] & Hin & Hx). cbn [snd] in Hx.
    destruct (Hch k c Hin) as [Hk Hwfc].
    destruct d' as [|d''].
    + destruct Hx as [<-|[]].
      destruct (In_dict_get _ _ _ Hin) as (v & Hv).
      rewrite Hk, Hf in Hv. congruence.
    + destruct c as [d0|t|l]; try (destruct Hx; fail).
      destruct (IH k d0 Hin Hwfc (S d'') f x Hx Hf) as (n & Hn).
      eapply first_hit_exists; eassumption.
Qed.

(** [add_child] refuses a fid that a direct child already has, and then
    there is no new container; otherwise the new child is the last one. *)
Lemma add_child_duplicate (self : DF) (node c : FileNode) :
  get_child self (fid node) = Some c -> add_child self node = Raise ValueError.
Proof.
  unfold add_child, dict_mem, get_child. intros ->. reflexivity.
Qed.

(** A later insertion does not change what [find] returns below the
    container for another fid. *)
Lemma find_add_child_preserved (self self' : DF) (node hit : FileNode) (f : Z) :
  add_child self node = Ok self' ->
  f <> fid_of_DF self -> f <> fid node ->
  find self f = Some hit -> find self' f = Some hit.
Proof.
  unfold add_child.
  destruct (dict_mem (children self) (fid node)); [discriminate|].
  intros [= <-] Hself Hne. rewrite !find_unfold. unfold get_child.
  cbn [fid_of_DF children].
  destruct (Z.eqb_spec f (fid_of_DF self)); [contradiction|].
  rewrite dict_get_app, first_hit_app.
  destruct (dict_get (children self) f); [trivial|].
  cbn [dict_get]. destruct (Z.eqb_spec f (fid node)); [contradiction|].
  intros ->. reflexivity.
Qed.

(** The sample profile is what [add_child] builds when DF_A is inserted
    before DF_B. *)
Example MF_sample_built :
  (mf <- add_child (mkDF true 0x3F00 "MF" []) (NodeDF DF_A) ;;
   add_child mf (NodeDF DF_B)) = Ok MF_sample.
Proof. reflexivity. Qed.

(** C1, as the code has it.  [find] returns the container itself when the
    fid is its own; otherwise the direct child under that fid when there
    is one; otherwise it goes through the children in insertion order
    ([add_child] puts a new child last), searches only the containers
    among them, never a leaf file, and returns the first hit.  So a match
    at the container or among its direct children wins over any deeper
    one, and below that the first-inserted container child whose subtree
    holds a match wins, at whatever depth the match lies in it. *)
Theorem find_resolution_order (self : DF) (f : Z) :
  (f = fid_of_DF self -> find self f = Some (NodeDF self)) /\
  (f <> fid_of_DF self ->
     forall c, get_child self f = Some c -> find self f = Some c) /\
  (f <> fid_of_DF self -> get_child self f = None ->
     (forall before k child after hit,
        children self = before ++ (k, NodeDF child) :: after ->
        (forall k' d', In (k', NodeDF d') before -> find d' f = None) ->
        find child f = Some hit ->
        find self f = Some hit) /\
     ((forall k d, In (k, NodeDF d) (children self) -> find d f = None) ->
        find self f = None)) /\
  (forall node self',
     add_child self node = Ok self' ->
     children self' = children self ++ [(fid node, node)] /\
     fid_of_DF self' = fid_of_DF self).
Proof.
  rewrite find_unfold.
  split; [|split; [|split]].
  - intros ->. rewrite Z.eqb_refl. reflexivity.
  - intros Hne c Hc. destruct (Z.eqb_spec f (fid_of_DF self)); [contradiction|].
    rewrite Hc. reflexivity.
  - intros Hne Hnone.
    destruct (Z.eqb_spec f (fid_of_DF self)); [contradiction|].
    rewrite Hnone. split.
    + intros before k child after hit Hsplit Hbefore Hhit.
      rewrite Hsplit, first_hit_app.
      rewrite first_hit_none by exact Hbefore.
      cbn. rewrite Hhit. reflexivity.
    + intros Hall. apply first_hit_none. exact Hall.
  - intros node self'. unfold add_child.
    destruct (dict_mem (children self) (fid node)); [discriminate|].
    intros [= <-]. split; reflexivity.
Qed.

Lemma find_resolution_order_witness :
  find MF_sample 0x3F00 = Some (NodeDF MF_sample) /\
  find MF_sample 0x7F20 = Some (NodeDF DF_B) /\
  find MF_sample 0x6F3B = Some (NodeLinearFixedEF EF_REC) /\
  find DF_A 0x6F3B = None.
Proof.
  split; [|split; [|split]].
  - apply (proj1 (find_resolution_order MF_sample 0x3F00)). reflexivity.
  - apply (proj1 (proj2 (find_resolution_order MF_sample 0x7F20)));
      [discriminate|reflexivity].
  - assert (Hne : 0x6F3B <> fid_of_DF MF_sample) by discriminate.
    assert (Hnone : get_child MF_sample 0x6F3B = None) by reflexivity.
    destruct (proj1 (proj2 (proj2 (find_resolution_order MF_sample 0x6F3B)))
                Hne Hnone) as [Hfirst _].
    apply (Hfirst [(0x7F10, NodeDF DF_A)] 0x7F20 DF_B []).
    + reflexivity.
    + intros k' d' [E|[]]. injection E as _ <-. reflexivity.
    + reflexivity.
  - assert (Hne : 0x6F3B <> fid_of_DF DF_A) by discriminate.
    assert (Hnone : get_child DF_A 0x6F3B = None) by reflexivity.
    destruct (proj1 (proj2 (proj2 (find_resolution_order DF_A 0x6F3B)))
                Hne Hnone) as [_ Hall].
    apply Hall. intros k d [E|[]]. injection E as _ <-. reflexivity.
Defined.

(** C1 as the specification words it does not hold: the shallowest match
    does not always win.  In the sample profile EF_SHALLOW(6F01) sits at
    depth 2 under the later-inserted DF_B, EF_DEEP(6F01) at depth 3 under
    the first-inserted DF_A and nowhere higher, and [find] from the root
    returns EF_DEEP. *)
Lemma deeper_match_in_earlier_branch_wins :
  wf_DF MF_sample = true /\
  find MF_sample 0x6F01 = Some (NodeTransparentEF EF_DEEP) /\
  In (NodeTransparentEF EF_SHALLOW) (nodes_at_depth 2 (NodeDF MF_sample)) /\
  fid (NodeTransparentEF EF_SHALLOW) = 0x6F01 /\
  (forall d', (d' <= 2)%nat ->
     ~ In (NodeTransparentEF EF_DEEP) (nodes_at_depth d' (NodeDF MF_sample))) /\
  ~ shallowest_match_wins MF_sample 0x6F01.
Proof.
  assert (Hshallow : In (NodeTransparentEF EF_SHALLOW)
                        (nodes_at_depth 2 (NodeDF MF_sample)))
    by (cbn; tauto).
  assert (Hdeep : forall d', (d' <= 2)%nat ->
            ~ In (NodeTransparentEF EF_DEEP)
                 (nodes_at_depth d' (NodeDF MF_sample))).
  { intros d' Hd' Hin.
    destruct d' as [|[|[|d']]]; [| | |lia]; cbn in Hin;
      repeat (destruct Hin as [Hin|Hin]; [discriminate Hin|]);
      exact Hin. }
  repeat split; try reflexivity; try assumption.
  intros Hclaim.
  destruct (Hclaim (NodeTransparentEF EF_DEEP) eq_refl 2%nat
              (NodeTransparentEF EF_SHALLOW) Hshallow eq_refl)
    as (d' & Hle & Hin).
  exact (Hdeep d' Hle Hin).
Qed.

(** C7.  For a SELECT of a fid that is not the root's: a node the lookup
    under the current container finds is the node selected, whatever the
    lookup from the root would find; in a well-formed tree a fid carried
    by a node of the current container's subtree is found there, so a fid
    present both under the current container and elsewhere selects the
    one under the current container; and the lookup from the root decides
    only when the lookup under the current container finds nothing. *)
Theorem select_prefers_relative
  (ctx : CardContext) (apdu : Apdu) (d0 d1 : byte) :
  ins apdu = INS_SELECT_FILE ->
  lc apdu <> 0 -> data apdu = [d0; d1] ->
  fid_of_bytes d0 d1 <> fid_of_DF (mf_root ctx) ->
  (forall n,
     find_under_current_df ctx (fid_of_bytes d0 d1) = Some n ->
     dispatch ctx apdu = (Ok SW_SUCCESS, select_node ctx n) /\
     current_file (select_node ctx n) = n /\
     exists d, In n (nodes_at_depth d (NodeDF (current_df ctx)))) /\
  (wf_DF (current_df ctx) = true ->
   forall d m,
     In m (nodes_at_depth d (NodeDF (current_df ctx))) ->
     fid m = fid_of_bytes d0 d1 ->
     exists n d',
       find_under_current_df ctx (fid_of_bytes d0 d1) = Some n /\
       fid n = fid_of_bytes d0 d1 /\
       In n (nodes_at_depth d' (NodeDF (current_df ctx))) /\
       dispatch ctx apdu = (Ok SW_SUCCESS, select_node ctx n)) /\
  (find_under_current_df ctx (fid_of_bytes d0 d1) = None ->
   dispatch ctx apdu =
   match find_anywhere ctx (fid_of_bytes d0 d1) with
   | Some n => (Ok SW_SUCCESS, select_node ctx n)
   | None => (Ok SW_FILE_NOT_FOUND, ctx)
   end).
Proof.
  intros Hins Hlc Hdata Hfid.
  assert (Hsel : dispatch ctx apdu =
    match find (current_df ctx) (fid_of_bytes d0 d1) with
    | Some n => (Ok SW_SUCCESS, select_node ctx n)
    | None =>
        match find (mf_root ctx) (fid_of_bytes d0 d1) with
        | Some n => (Ok SW_SUCCESS, select_node ctx n)
        | None => (Ok SW_FILE_NOT_FOUND, ctx)
        end
    end).
  { rewrite dispatch_select by assumption.
    rewrite handle_select_cases, Hdata.
    destruct (Z.eqb_spec (lc apdu) 0); [contradiction|].
    destruct (Z.eqb_spec (fid_of_bytes d0 d1) (fid_of_DF (mf_root ctx)));
      [contradiction|reflexivity]. }
  unfold find_under_current_df, find_anywhere.
  split; [|split].
  - intros n Hrel. rewrite Hsel, Hrel.
    split; [reflexivity|]. split; [destruct n; reflexivity|].
    eapply find_in_subtree; eassumption.
  - intros Hwf d m Hm Hfm.
    assert (Hex : exists n,
               find (current_df ctx) (fid_of_bytes d0 d1) = Some n)
      by (eapply find_complete; eassumption).
    destruct Hex as (n & Hrel).
    assert (Hsub : exists d', In n (nodes_at_depth d' (NodeDF (current_df ctx))))
      by (eapply find_in_subtree; eassumption).
    destruct Hsub as (d' & Hd').
    exists n, d'. rewrite Hsel, Hrel.
    split; [reflexivity|].
    split; [eapply find_fid; eassumption|].
    split; [exact Hd'|reflexivity].
  - intros Hrel. rewrite Hsel, Hrel. reflexivity.
Qed.

Lemma select_prefers_relative_witness :
  dispatch (select_node (from_mf MF_sample) (NodeDF DF_B))
           (mkApdu 0x00 0xA4 0x00 0x0C 2 [x6f; x01] None)
  = (Ok SW_SUCCESS,
     select_node (select_node (from_mf MF_sample) (NodeDF DF_B))
                 (NodeTransparentEF EF_SHALLOW)) /\
  find_anywhere (select_node (from_mf MF_sample) (NodeDF DF_B)) 0x6F01
  = Some (NodeTransparentEF EF_DEEP).
Proof.
  split; [|reflexivity].
  assert (Hlc : lc (mkApdu 0x00 0xA4 0x00 0x0C 2 [x6f; x01] None) <> 0)
    by discriminate.
  assert (Hfid : fid_of_bytes x6f x01 <>
                 fid_of_DF (mf_root (select_node (from_mf MF_sample)
                                                 (NodeDF DF_B))))
    by discriminate.
  destruct (@select_prefers_relative
              (select_node (from_mf MF_sample) (NodeDF DF_B))
              (mkApdu 0x00 0xA4 0x00 0x0C 2 [x6f; x01] None) x6f x01
              eq_refl Hlc eq_refl Hfid) as (Hrel & _ & _).
  exact (proj1 (Hrel (NodeTransparentEF EF_SHALLOW) eq_refl)).
Defined.

(* ===================================================================== *)
(** * Further properties of the code                                      *)
(* ===================================================================== *)

(* ===================================================================== *)
(** ** The decoder                                                        *)
(* ===================================================================== *)

Lemma int_of_byte_inj (b c : byte) : int_of_byte b = int_of_byte c -> b = c.
Proof.
  intros H. rewrite <- (byte_of_int_of_byte b), <- (byte_of_int_of_byte c).
  rewrite H. reflexivity.
Qed.

(** [(hi << 8) | lo] is [256 * hi + lo] when [lo] is a byte. *)
Lemma lor_shiftl_8 (hi lo : Z) :
  0 <= hi -> 0 <= lo <= 255 ->
  Z.lor (Z.shiftl hi 8) lo = 256 * hi + lo.
Proof.
  intros Hhi Hlo.
  assert (Hland : Z.land (Z.shiftl hi 8) lo = 0).
  { apply Z.bits_inj'. intros n Hn.
    rewrite Z.land_spec, Z.bits_0.
    destruct (Z.lt_ge_cases n 8) as [Hlt|Hge].
    - rewrite Z.shiftl_spec_low by exact Hlt. reflexivity.
    - destruct (Z.eq_dec lo 0) as [->|Hnz].
      + rewrite Z.bits_0. apply andb_false_r.
      + rewrite (Z.bits_above_log2 lo n); [apply andb_false_r|lia|].
        apply Z.lt_le_trans with (m := 8); [|exact Hge].
        apply Z.log2_lt_pow2; [lia|]. change (2 ^ 8) with 256. lia. }
  rewrite <- Z.lxor_lor by exact Hland.
  rewrite <- Z.add_nocarry_lxor by exact Hland.
  rewrite Z.shiftl_mul_pow2 by lia. change (2 ^ 8) with 256. lia.
Qed.

(** X1.  Every command [parse_apdu] returns is well formed: the four
    header fields and Le, when present, are byte values, [lc] is the
    number of data bytes and is at most 255. *)
Theorem parse_apdu_yields_valid (raw : bytes) (a : Apdu) :
  parse_apdu raw = Ok a ->
  valid_apdu a /\ len (data a) <= len raw - 4 /\
  has_data a = negb (len (data a) =? 0).
Proof.
  intros Hp. pose proof (parse_apdu_valid raw Hp) as Hv.
  split; [exact Hv|].
  destruct Hv as (_ & _ & _ & _ & Hlc & _ & _).
  split.
  - destruct raw as [|c [|i [|x [|y [|l rest]]]]];
      try (rewrite parse_apdu_short in Hp
             by (rewrite ?len_cons, ?len_nil; lia); discriminate).
    + rewrite parse_apdu_case1 in Hp. injection Hp as <-. cbn. lia.
    + destruct rest as [|r0 rest'].
      * rewrite parse_apdu_case2 in Hp. injection Hp as <-. cbn. lia.
      * rewrite parse_apdu_long in Hp by discriminate. cbv zeta in Hp.
        pose proof (int_of_byte_range l) as Hl.
        rewrite Z.gtb_ltb in Hp.
        destruct (Z.ltb_spec (len (r0 :: rest')) (int_of_byte l));
          [discriminate|].
        assert (Hd : len (firstn (Z.to_nat (int_of_byte l)) (r0 :: rest'))
                     <= len (r0 :: rest'))
          by (rewrite len_firstn by lia; lia).
        rewrite (len_cons c), (len_cons i), (len_cons x), (len_cons y),
                (len_cons l).
        destruct (skipn (Z.to_nat (int_of_byte l)) (r0 :: rest'))
          as [|e [|e' r]]; try discriminate;
          injection Hp as <-; cbn [data]; lia.
  - unfold has_data. rewrite Hlc, Z.gtb_ltb.
    pose proof (len_nonneg (data a)).
    destruct (Z.ltb_spec 0 (len (data a)));
      destruct (Z.eqb_spec (len (data a)) 0); (reflexivity || lia).
Qed.

Lemma parse_apdu_yields_valid_witness :
  valid_apdu (mkApdu 0x00 0xB0 0x00 0x02 0 [] (Some 0x0A)).
Proof.
  assert (Hp : parse_apdu [x00; xb0; x00; x02; x0a] =
               Ok (mkApdu 0x00 0xB0 0x00 0x02 0 [] (Some 0x0A)))
    by reflexivity.
  exact (proj1 (parse_apdu_yields_valid _ Hp)).
Defined.

Lemma parse_apdu_raises_only (raw : bytes) (e : exn) :
  parse_apdu raw = Raise e ->
  is_ApduParseError e = true /\ is_ValueError e = true.
Proof.
  intros Hp.
  destruct raw as [|c [|i [|x [|y [|l rest]]]]];
    try (rewrite parse_apdu_short in Hp
           by (rewrite ?len_cons, ?len_nil; lia);
         injection Hp as <-; split; reflexivity).
  - rewrite parse_apdu_case1 in Hp. discriminate.
  - destruct rest as [|r0 rest'].
    + rewrite parse_apdu_case2 in Hp. discriminate.
    + rewrite parse_apdu_long in Hp by discriminate. cbv zeta in Hp.
      destruct (_ >? _); [injection Hp as <-; split; reflexivity|].
      destruct (skipn _ _) as [|e0 [|e1 r]]; try discriminate.
      injection Hp as <-. split; reflexivity.
Qed.

(** X2.  [parse_apdu] raises nothing but [ApduParseError], a
    [ValueError]: no index it uses is ever out of range. *)
Theorem parse_apdu_raises_parse_error (raw : bytes) (e : exn) :
  parse_apdu raw = Raise e ->
  is_ApduParseError e = true /\ is_ValueError e = true /\
  (len raw < 4 \/ 6 <= len raw).
Proof.
  intros Hp.
  destruct raw as [|c [|i [|x [|y [|l rest]]]]];
    try (rewrite parse_apdu_short in Hp
           by (rewrite ?len_cons, ?len_nil; lia);
         injection Hp as <-; rewrite ?len_cons, ?len_nil;
         repeat split; left; lia).
  - rewrite parse_apdu_case1 in Hp. discriminate.
  - destruct rest as [|r0 rest'].
    + rewrite parse_apdu_case2 in Hp. discriminate.
    + rewrite parse_apdu_long in Hp by discriminate. cbv zeta in Hp.
      assert (Hlen : 6 <= len (c :: i :: x :: y :: l :: r0 :: rest'))
        by (rewrite !len_cons; pose proof (len_nonneg rest'); lia).
      destruct (_ >? _); [injection Hp as <-; repeat split; right; exact Hlen|].
      destruct (skipn _ _) as [|e0 [|e1 r]]; try discriminate.
      injection Hp as <-. repeat split. right. exact Hlen.
Qed.

Lemma parse_apdu_raises_parse_error_witness :
  is_ApduParseError (ApduParseError TrailingBytes) = true /\
  is_ValueError (ApduParseError TrailingBytes) = true /\
  (len [x00; xa4; x00; x0c; x01; x3f; x00; x00] < 4 \/
   6 <= len [x00; xa4; x00; x0c; x01; x3f; x00; x00]).
Proof.
  assert (Hp : parse_apdu [x00; xa4; x00; x0c; x01; x3f; x00; x00] =
               Raise (ApduParseError TrailingBytes)) by reflexivity.
  exact (parse_apdu_raises_parse_error _ Hp).
Defined.

(** The buffers a command can have been decoded from: its encoding, or,
    for a command without data and with Le, also the six bytes that carry
    an Lc byte of zero. *)
Lemma parse_apdu_preimage (raw : bytes) (a : Apdu) :
  parse_apdu raw = Ok a ->
  (raw = encode_apdu a /\ len raw <> 6 \/ lc a <> 0 /\ raw = encode_apdu a)
  \/
  (lc a = 0 /\ exists e, le a = Some e /\ len raw = 6 /\
     raw = [byte_of_int (cla a); byte_of_int (ins a); byte_of_int (p1 a);
            byte_of_int (p2 a); x00; byte_of_int e]).
Proof.
  intros Hp.
  destruct raw as [|c [|i [|x [|y [|l rest]]]]];
    try (rewrite parse_apdu_short in Hp
           by (rewrite ?len_cons, ?len_nil; lia); discriminate).
  - rewrite parse_apdu_case1 in Hp. injection Hp as <-.
    left; left. unfold encode_apdu. cbn.
    rewrite !byte_of_int_of_byte. split; [reflexivity|discriminate].
  - destruct rest as [|r0 rest'].
    + rewrite parse_apdu_case2 in Hp. injection Hp as <-.
      left; left. unfold encode_apdu. cbn.
      rewrite !byte_of_int_of_byte. split; [reflexivity|discriminate].
    + rewrite parse_apdu_long in Hp by discriminate. cbv zeta in Hp.
      pose proof (int_of_byte_range l) as Hl.
      rewrite Z.gtb_ltb in Hp.
      destruct (Z.ltb_spec (len (r0 :: rest')) (int_of_byte l));
        [discriminate|].
      pose proof (firstn_skipn (Z.to_nat (int_of_byte l)) (r0 :: rest'))
        as Hsplit.
      destruct (Z.eq_dec (int_of_byte l) 0) as [Hz|Hnz].
      * rewrite Hz in Hp, Hsplit.
        change (Z.to_nat 0) with 0%nat in Hp, Hsplit.
        cbn [firstn skipn app] in Hp, Hsplit.
        destruct rest' as [|r1 rest'']; [|discriminate].
        injection Hp as <-. right. cbn [cla ins p1 p2 lc data le].
        split; [reflexivity|]. exists (int_of_byte r0).
        split; [reflexivity|]. split; [reflexivity|].
        rewrite !byte_of_int_of_byte.
        replace l with x00; [reflexivity|].
        apply int_of_byte_inj. rewrite Hz. reflexivity.
      * left; right.
        destruct (skipn (Z.to_nat (int_of_byte l)) (r0 :: rest'))
          as [|e0 [|e1 r]]; try discriminate;
          injection Hp as <-; cbn [lc]; (split; [exact Hnz|]);
          unfold encode_apdu, has_data; cbn [cla ins p1 p2 lc data le];
          rewrite Z.gtb_ltb;
          (destruct (Z.ltb_spec 0 (int_of_byte l)); [|lia]);
          rewrite !byte_of_int_of_byte; cbn [app];
          rewrite <- Hsplit at 1; rewrite ?app_nil_r; reflexivity.
Qed.

(** C2, as the code has it.  Every buffer that [parse_apdu] accepts, a
    Case 1 to Case 4 buffer, is given back byte for byte by decoding it
    and encoding the decoded command again, except the six-byte buffer
    whose Lc byte is zero (header, Lc = 00, Le): that one decodes to the
    command that the five-byte buffer without the Lc byte (header, Le)
    decodes to, and encoding gives those five bytes. *)
Theorem decode_encode_roundtrip (raw : bytes) (a : Apdu) :
  parse_apdu raw = Ok a ->
  (~ (len raw = 6 /\ lc a = 0) -> encode_apdu a = raw) /\
  (len raw = 6 -> lc a = 0 ->
     exists c i x y e,
       raw = [c; i; x; y; x00; e] /\
       encode_apdu a = [c; i; x; y; e] /\
       parse_apdu [c; i; x; y; e] = Ok a).
Proof.
  intros Hp.
  pose proof (parse_apdu_valid raw Hp) as (Hc & Hi & H1 & H2 & Hlc & _ & Hle).
  destruct (parse_apdu_preimage raw Hp)
    as [[[E L]|[N E]]|(Z0 & e & Le & L & E)].
  - split; [intros _; symmetry; exact E|]. intros L6. contradiction.
  - split; [intros _; symmetry; exact E|]. intros _ Z0. contradiction.
  - split; [intros Hnot; exfalso; apply Hnot; split; assumption|].
    intros _ _.
    exists (byte_of_int (cla a)), (byte_of_int (ins a)),
           (byte_of_int (p1 a)), (byte_of_int (p2 a)), (byte_of_int e).
    split; [exact E|].
    assert (Hd : data a = []) by (apply len_zero_nil; lia).
    rewrite Le in Hle. unfold is_u8 in *.
    split.
    + unfold encode_apdu, has_data. rewrite Z0, Le. reflexivity.
    + rewrite parse_apdu_case2.
      rewrite !int_of_byte_of_int by lia.
      destruct a as [c0 i0 x0 y0 n0 d0 e0]. cbn in *. congruence.
Qed.

Lemma decode_encode_roundtrip_witness :
  parse_apdu [x00; xa4; x00; x0c; x02; x3f; x00; x00] =
  Ok (mkApdu 0x00 0xA4 0x00 0x0C 2 [x3f; x00] (Some 0)) /\
  encode_apdu (mkApdu 0x00 0xA4 0x00 0x0C 2 [x3f; x00] (Some 0)) =
  [x00; xa4; x00; x0c; x02; x3f; x00; x00].
Proof.
  assert (Hp : parse_apdu [x00; xa4; x00; x0c; x02; x3f; x00; x00] =
               Ok (mkApdu 0x00 0xA4 0x00 0x0C 2 [x3f; x00] (Some 0)))
    by reflexivity.
  split; [exact Hp|].
  apply (proj1 (@decode_encode_roundtrip _ _ Hp)).
  intros [_ Hz]. discriminate Hz.
Defined.

(** C2 as the specification words it does not hold.  The six bytes
    00 B0 00 00 00 0A are a Case 4 buffer (six bytes or more, Lc = 00, no
    data, one remaining byte as Le) that [parse_apdu] accepts; the decoded
    command is the one the five bytes 00 B0 00 00 0A decode to, encoding
    it gives those five bytes, and no encoder whatever gives back every
    buffer that decodes. *)
Lemma zero_lc_case4_not_reproduced :
  parse_apdu [x00; xb0; x00; x00; x00; x0a] =
  Ok (mkApdu 0x00 0xB0 0x00 0x00 0 [] (Some 0x0A)) /\
  parse_apdu [x00; xb0; x00; x00; x0a] =
  Ok (mkApdu 0x00 0xB0 0x00 0x00 0 [] (Some 0x0A)) /\
  encode_apdu (mkApdu 0x00 0xB0 0x00 0x00 0 [] (Some 0x0A)) =
  [x00; xb0; x00; x00; x0a] /\
  encode_apdu (mkApdu 0x00 0xB0 0x00 0x00 0 [] (Some 0x0A)) <>
  [x00; xb0; x00; x00; x00; x0a] /\
  ~ (exists encode : Apdu -> bytes,
       forall raw a, parse_apdu raw = Ok a -> encode a = raw).
Proof.
  assert (H6 : parse_apdu [x00; xb0; x00; x00; x00; x0a] =
               Ok (mkApdu 0x00 0xB0 0x00 0x00 0 [] (Some 0x0A)))
    by reflexivity.
  assert (H5 : parse_apdu [x00; xb0; x00; x00; x0a] =
               Ok (mkApdu 0x00 0xB0 0x00 0x00 0 [] (Some 0x0A)))
    by reflexivity.
  split; [exact H6|]. split; [exact H5|].
  split; [reflexivity|]. split; [discriminate|].
  intros (encode & Hall).
  pose proof (Hall _ _ H6) as E6. pose proof (Hall _ _ H5) as E5.
  rewrite E6 in E5. discriminate E5.
Qed.

(** X3.  Decoding loses nothing but the presence of a zero Lc byte: two
    buffers of the same length that decode to the same command are equal,
    and two different buffers decode to the same command only when it has
    no data and has Le, one buffer being five bytes long and the other
    six. *)
Theorem parse_apdu_injective (raw1 raw2 : bytes) (a : Apdu) :
  parse_apdu raw1 = Ok a -> parse_apdu raw2 = Ok a ->
  (len raw1 = len raw2 -> raw1 = raw2) /\
  (raw1 <> raw2 ->
     lc a = 0 /\ data a = [] /\ le a <> None /\
     (len raw1 = 5 /\ len raw2 = 6 \/ len raw1 = 6 /\ len raw2 = 5)).
Proof.
  intros H1 H2.
  pose proof (parse_apdu_valid _ H1) as (_ & _ & _ & _ & Hlc & _).
  assert (Henc : lc a = 0 -> forall e, le a = Some e ->
                 len (encode_apdu a) = 5).
  { intros Hz e He. unfold encode_apdu, has_data. rewrite Hz, He.
    reflexivity. }
  assert (Hdata : lc a = 0 -> data a = [])
    by (intros Hz; apply len_zero_nil; lia).
  destruct (parse_apdu_preimage _ H1) as [[[E1 L1]|[N1 E1]]|(Z1 & e1 & Le1 & L1 & E1)];
  destruct (parse_apdu_preimage _ H2) as [[[E2 L2]|[N2 E2]]|(Z2 & e2 & Le2 & L2 & E2)];
    try (split; [intros _; congruence|intros Hne; congruence]).
  - split.
    + intros Hlen. rewrite E1, (Henc Z2 e2 Le2) in Hlen. lia.
    + intros _. split; [exact Z2|]. split; [exact (Hdata Z2)|].
      split; [congruence|]. left.
      rewrite E1 at 1. rewrite (Henc Z2 e2 Le2). split; [reflexivity|exact L2].
  - split.
    + intros Hlen. rewrite E2, (Henc Z1 e1 Le1) in Hlen. lia.
    + intros _. split; [exact Z1|]. split; [exact (Hdata Z1)|].
      split; [congruence|]. right.
      rewrite E2 at 1. rewrite (Henc Z1 e1 Le1). split; [exact L1|reflexivity].
Qed.

Lemma parse_apdu_injective_witness :
  parse_apdu [x00; xb0; x00; x00; x0a] =
  parse_apdu [x00; xb0; x00; x00; x00; x0a] /\
  lc (mkApdu 0x00 0xB0 0x00 0x00 0 [] (Some 0x0A)) = 0 /\
  (len [x00; xb0; x00; x00; x0a] = 5 /\
   len [x00; xb0; x00; x00; x00; x0a] = 6 \/
   len [x00; xb0; x00; x00; x0a] = 6 /\
   len [x00; xb0; x00; x00; x00; x0a] = 5).
Proof.
  assert (H1 : parse_apdu [x00; xb0; x00; x00; x0a] =
               Ok (mkApdu 0x00 0xB0 0x00 0x00 0 [] (Some 0x0A)))
    by reflexivity.
  assert (H2 : parse_apdu [x00; xb0; x00; x00; x00; x0a] =
               Ok (mkApdu 0x00 0xB0 0x00 0x00 0 [] (Some 0x0A)))
    by reflexivity.
  assert (Hne : [x00; xb0; x00; x00; x0a] <> [x00; xb0; x00; x00; x00; x0a])
    by discriminate.
  destruct (@parse_apdu_injective _ _ _ H1 H2) as [_ Hcol].
  destruct (Hcol Hne) as (Hz & _ & _ & Hlens).
  split; [rewrite H1, H2; reflexivity|]. split; [exact Hz|exact Hlens].
Defined.

(** X4.  For byte-sized P1 and P2 the offset [p1p2] is [256 * P1 + P2], a
    value from 0 to 65535; this is so on every command [parse_apdu]
    returns. *)
Theorem p1p2_big_endian (a : Apdu) :
  (is_u8 (p1 a) -> is_u8 (p2 a) ->
   p1p2 a = 256 * p1 a + p2 a /\ 0 <= p1p2 a <= 0xFFFF) /\
  (forall raw, parse_apdu raw = Ok a ->
   p1p2 a = 256 * p1 a + p2 a /\ 0 <= p1p2 a <= 0xFFFF).
Proof.
  assert (Hbytes : is_u8 (p1 a) -> is_u8 (p2 a) ->
            p1p2 a = 256 * p1 a + p2 a /\ 0 <= p1p2 a <= 0xFFFF).
  { unfold is_u8, p1p2. intros H1 H2.
    rewrite lor_shiftl_8 by lia. lia. }
  split; [exact Hbytes|].
  intros raw Hp.
  destruct (parse_apdu_valid raw Hp) as (_ & _ & H1 & H2 & _).
  exact (Hbytes H1 H2).
Qed.

Lemma p1p2_big_endian_witness :
  p1p2 (mkApdu 0x00 0xB0 0x01 0x02 0 [] (Some 0)) = 256 * 1 + 2 /\
  0 <= p1p2 (mkApdu 0x00 0xB0 0x01 0x02 0 [] (Some 0)) <= 0xFFFF.
Proof.
  apply (proj1 (p1p2_big_endian (mkApdu 0x00 0xB0 0x01 0x02 0 [] (Some 0))));
    unfold is_u8; cbn; lia.
Defined.

(* ===================================================================== *)
(** ** Containers: lookup, insertion, well-formedness                     *)
(* ===================================================================== *)

Lemma dict_mem_keys (V : Type) (d : dict V) (k : Z) :
  dict_mem d k = existsb (Z.eqb k) (dict_keys d).
Proof.
  unfold dict_mem.
  induction d as [|[k' v] rest IH]; cbn; [reflexivity|].
  destruct (k =? k'); [reflexivity|exact IH].
Qed.

Lemma distinct_snoc (ks : list Z) (k : Z) :
  distinct (ks ++ [k]) = distinct ks && negb (existsb (Z.eqb k) ks).
Proof.
  induction ks as [|k0 rest IH]; cbn; [reflexivity|].
  rewrite IH, existsb_app. cbn. rewrite orb_false_r.
  rewrite (Z.eqb_sym k k0).
  destruct (existsb (Z.eqb k0) rest), (k0 =? k), (distinct rest),
           (existsb (Z.eqb k) rest); reflexivity.
Qed.

(** [wf_DF] on a container, with the check of a child spelled [wf_node]. *)
Lemma wf_DF_unfold (m : bool) (f : Z) (n : string) (cs : dict FileNode) :
  wf_DF (mkDF m f n cs) =
  fid_in_range f && distinct (dict_keys cs) &&
  forallb (fun kc => (fst kc =? fid (snd kc)) && wf_node (snd kc)) cs.
Proof.
  cbn [wf_DF]. f_equal.
  induction cs as [|[k c] rest IH]; [reflexivity|].
  cbn [forallb fst snd]. rewrite <- IH.
  destruct c; reflexivity.
Qed.

(** A container below a well-formed container is well formed. *)
Lemma wf_DF_subtree (d : nat) :
  forall (self child : DF),
    wf_DF self = true ->
    In (NodeDF child) (nodes_at_depth d (NodeDF self)) ->
    wf_DF child = true.
Proof.
  induction d as [|d IH]; intros self child Hwf Hin.
  - destruct Hin as [E|[]]. injection E as <-. exact Hwf.
  - cbn [nodes_at_depth] in Hin. apply in_flat_map in Hin.
    destruct Hin as ([k c] & Hc & Hin). cbn [snd] in Hin.
    destruct (wf_DF_children _ Hwf _ _ Hc) as [_ Hwfc].
    destruct c as [d0|t|l].
    + exact (IH d0 child Hwfc Hin).
    + destruct d; cbn in Hin;
        [destruct Hin as [E|[]]; discriminate E|destruct Hin].
    + destruct d; cbn in Hin;
        [destruct Hin as [E|[]]; discriminate E|destruct Hin].
Qed.

Lemma find_none_absent (self : DF) (f : Z) :
  wf_DF self = true -> find self f = None -> absent self f.
Proof.
  intros Hwf Hnone d m Hm Hf.
  assert (Hex : exists n, find self f = Some n)
    by (eapply find_complete; eassumption).
  destruct Hex as (n & Hn). congruence.
Qed.

Lemma absent_find_none (self : DF) (f : Z) :
  wf_DF self = true -> absent self f -> find self f = None.
Proof.
  intros Hwf Habs. destruct (find self f) as [n|] eqn:Hn; [|reflexivity].
  exfalso.
  assert (Hsub : exists d, In n (nodes_at_depth d (NodeDF self)))
    by (eapply find_in_subtree; eassumption).
  destruct Hsub as (d & Hd).
  apply (Habs d n Hd). eapply find_fid; eassumption.
Qed.

(** X5.  In a well-formed tree [find] is correct: a node it returns
    carries the fid asked for and is a node of the subtree, and it returns
    nothing exactly when no node of the subtree carries that fid. *)
Theorem find_correct (self : DF) (f : Z) :
  wf_DF self = true ->
  (forall n, find self f = Some n -> fid n = f /\ in_tree self n) /\
  (find self f = None <-> absent self f).
Proof.
  intros Hwf. split; [|split].
  - intros n Hn. split.
    + eapply find_fid; eassumption.
    + eapply find_in_subtree; eassumption.
  - apply find_none_absent. exact Hwf.
  - apply absent_find_none. exact Hwf.
Qed.

Lemma find_correct_witness :
  (forall n, find MF_sample 0x6F3B = Some n ->
             fid n = 0x6F3B /\ in_tree MF_sample n) /\
  (find MF_sample 0x6F3B = None <-> absent MF_sample 0x6F3B).
Proof.
  apply find_correct. reflexivity.
Defined.

(** X6.  [add_child] raises [ValueError] when a direct child already has
    the fid of the node, and only then.  Otherwise the new container has
    the node under its fid, has every other fid as before, and has one
    child more, the new one being the last. *)
Theorem add_child_lookup (self : DF) (node : FileNode) :
  (get_child self (fid node) <> None ->
     add_child self node = Raise ValueError) /\
  (get_child self (fid node) = None ->
     exists self',
       add_child self node = Ok self' /\
       get_child self' (fid node) = Some node /\
       (forall f, f <> fid node -> get_child self' f = get_child self f) /\
       len (children self') = len (children self) + 1 /\
       getitem (children self') (-1) = Ok (fid node, node) /\
       fid_of_DF self' = fid_of_DF self).
Proof.
  unfold add_child, dict_mem, get_child. split.
  - intros H. destruct (dict_get (children self) (fid node)); [reflexivity|].
    contradiction.
  - intros Hnone. rewrite Hnone. eexists. split; [reflexivity|].
    cbn [children fid_of_DF]. split; [|split; [|split; [|split]]].
    + rewrite dict_get_app, Hnone.
      cbn [dict_get]. rewrite Z.eqb_refl. reflexivity.
    + intros f Hne. rewrite dict_get_app.
      destruct (dict_get (children self) f); [reflexivity|].
      cbn [dict_get]. destruct (Z.eqb_spec f (fid node)); [contradiction|].
      reflexivity.
    + rewrite len_app. reflexivity.
    + unfold getitem. rewrite len_app.
      change (len [(fid node, node)]) with 1.
      pose proof (len_nonneg (children self)) as Hn.
      change (-1 <? 0) with true. cbv iota.
      destruct (Z.ltb_spec (-1 + (len (children self) + 1)) 0); [lia|].
      replace (-1 + (len (children self) + 1)) with (len (children self))
        by lia.
      unfold len. rewrite Nat2Z.id.
      rewrite nth_error_app2 by lia. rewrite Nat.sub_diag. reflexivity.
    + reflexivity.
Qed.

Lemma add_child_lookup_witness :
  add_child DF_A (NodeDF DF_A1) = Raise ValueError /\
  exists self',
    add_child DF_A (NodeTransparentEF EF_SHALLOW) = Ok self' /\
    get_child self' 0x6F01 = Some (NodeTransparentEF EF_SHALLOW) /\
    get_child self' 0x5F10 = Some (NodeDF DF_A1).
Proof.
  split.
  - apply (proj1 (add_child_lookup DF_A (NodeDF DF_A1))). discriminate.
  - destruct (proj2 (add_child_lookup DF_A (NodeTransparentEF EF_SHALLOW))
                eq_refl) as (self' & Hadd & Hnew & Hold & _).
    exists self'. split; [exact Hadd|]. split; [exact Hnew|].
    rewrite (Hold 0x5F10) by discriminate. reflexivity.
Defined.

(** X7.  [add_child] keeps a tree well formed: adding a well-formed node
    to a well-formed container gives a well-formed container. *)
Theorem add_child_keeps_wf (self self' : DF) (node : FileNode) :
  wf_DF self = true -> wf_node node = true ->
  add_child self node = Ok self' ->
  wf_DF self' = true /\
  forall k c, In (k, c) (children self') -> k = fid c /\ wf_node c = true.
Proof.
  intros Hwf Hnode. unfold add_child.
  destruct (dict_mem (children self) (fid node)) eqn:Hmem; [discriminate|].
  intros [= <-].
  destruct self as [m f n cs]. cbn [is_mf fid_of_DF name_of_DF children] in *.
  rewrite wf_DF_unfold in Hwf.
  apply andb_prop in Hwf. destruct Hwf as [Hwf Hall].
  apply andb_prop in Hwf. destruct Hwf as [Hfid Hdist].
  assert (Hall' : forallb (fun kc => (fst kc =? fid (snd kc)) && wf_node (snd kc))
                    (cs ++ [(fid node, node)]) = true).
  { rewrite forallb_app, Hall. cbn. rewrite Z.eqb_refl, Hnode. reflexivity. }
  split.
  - rewrite wf_DF_unfold, Hfid, Hall'.
    unfold dict_keys. rewrite map_app. cbn [map fst].
    rewrite distinct_snoc. fold (dict_keys cs).
    rewrite Hdist, <- dict_mem_keys, Hmem. reflexivity.
  - intros k c Hin.
    rewrite forallb_forall in Hall'. specialize (Hall' (k, c) Hin).
    cbn [fst snd] in Hall'. apply andb_prop in Hall'.
    destruct Hall' as [Hk Hc]. split; [apply Z.eqb_eq; exact Hk|exact Hc].
Qed.

Lemma add_child_keeps_wf_witness :
  exists self',
    add_child DF_A (NodeLinearFixedEF EF_REC) = Ok self' /\
    wf_DF self' = true.
Proof.
  eexists. split; [reflexivity|].
  refine (proj1 (@add_child_keeps_wf DF_A _ (NodeLinearFixedEF EF_REC)
                   eq_refl eq_refl eq_refl)).
Defined.

(* ===================================================================== *)
(** ** Leaf files: reading                                                *)
(* ===================================================================== *)

Lemma firstn_plus (A : Type) (n m : nat) :
  forall l : list A, firstn (n + m) l = firstn n l ++ firstn m (skipn n l).
Proof.
  induction n as [|n IH]; intros l; [reflexivity|].
  destruct l as [|x l]; cbn.
  - rewrite firstn_nil. reflexivity.
  - rewrite IH. reflexivity.
Qed.

(** X8.  [read_record] returns the record at index [record_number - 1]
    for a record number from 1 to [record_count], and raises [IndexError]
    for every other; in a file that passed [__post_init__] the record
    returned has [record_len] bytes. *)
Theorem read_record_returns_record (self : LinearFixedEF) (n : Z) :
  (1 <= n <= record_count self ->
     exists r,
       read_record self n = Ok r /\
       nth_error (records self) (Z.to_nat (n - 1)) = Some r /\
       (records_ok self = true -> len r = record_len self)) /\
  (n < 1 \/ record_count self < n -> read_record self n = Raise IndexError).
Proof.
  split; [|apply read_record_outside].
  intros Hn. destruct (read_record_inside self Hn) as (r & Hr & Hnth).
  exists r. split; [exact Hr|]. split; [exact Hnth|].
  unfold records_ok. intros Hok.
  apply andb_prop in Hok. destruct Hok as [_ Hall].
  rewrite forallb_forall in Hall.
  apply Z.eqb_eq. apply Hall. eapply nth_error_In. exact Hnth.
Qed.

Lemma read_record_returns_record_witness :
  read_record EF_REC 2 = Ok [x21; x22; x23] /\
  read_record EF_REC 3 = Raise IndexError.
Proof.
  destruct (read_record_returns_record EF_REC 2) as [Hin _].
  destruct (read_record_returns_record EF_REC 3) as [_ Hout].
  split.
  - assert (H2 : 1 <= 2 <= record_count EF_REC)
      by (change (record_count EF_REC) with 2; lia).
    destruct (Hin H2) as (r & -> & Hnth & _).
    injection Hnth as <-. reflexivity.
  - apply Hout. right. change (record_count EF_REC) with 2. lia.
Defined.

(** X9.  Reads of a transparent file compose: when the first read ends
    inside the content, a read of [a + b] bytes returns what a read of
    [a] bytes followed by a read of [b] bytes at the offset where the
    first ended returns; and a read from offset 0 of at least the content
    length returns the whole content. *)
Theorem read_binary_chunks (self : TransparentEF) (offset a b : Z) :
  0 <= offset -> 0 <= a -> 0 <= b -> offset + a <= len (content self) ->
  (exists d1 d2,
     read_binary self offset a = Ok d1 /\
     read_binary self (offset + a) b = Ok d2 /\
     len d1 = a /\
     read_binary self offset (a + b) = Ok (d1 ++ d2)) /\
  (len (content self) <= b -> read_binary self 0 b = Ok (content self)).
Proof.
  intros Ho Ha Hb Hend.
  pose proof (len_nonneg (content self)) as Hlen.
  rewrite !read_binary_cases.
  destruct (Z.ltb_spec offset 0); [lia|].
  destruct (Z.ltb_spec a 0); [lia|].
  destruct (Z.ltb_spec b 0); [lia|].
  destruct (Z.ltb_spec (a + b) 0); [lia|].
  destruct (Z.ltb_spec (offset + a) 0); [lia|].
  destruct (Z.ltb_spec 0 0); [lia|]. cbn [orb].
  destruct (Z.ltb_spec (len (content self)) offset); [lia|].
  destruct (Z.ltb_spec (len (content self)) (offset + a)); [lia|].
  destruct (Z.ltb_spec (len (content self)) 0); [lia|].
  split.
  - eexists. eexists. split; [reflexivity|]. split; [reflexivity|].
    split.
    + rewrite len_firstn by lia. rewrite len_skipn by lia. lia.
    + rewrite !Z2Nat.inj_add by lia.
      rewrite firstn_plus.
      rewrite skipn_skipn.
      rewrite (Nat.add_comm (Z.to_nat a) (Z.to_nat offset)). reflexivity.
  - intros Hall. change (Z.to_nat 0) with 0%nat. cbn [skipn].
    rewrite firstn_all2 by (unfold len in *; lia). reflexivity.
Qed.

Lemma read_binary_chunks_witness :
  read_binary EF_DEEP 1 3 = Ok ([x02] ++ [x03; x04]) /\
  read_binary EF_DEEP 0 256 = Ok [x01; x02; x03; x04].
Proof.
  assert (Hend : 1 + 1 <= len (content EF_DEEP))
    by (change (len (content EF_DEEP)) with 4; lia).
  destruct (@read_binary_chunks EF_DEEP 1 1 2
              ltac:(lia) ltac:(lia) ltac:(lia) Hend) as [Hchunks _].
  destruct (@read_binary_chunks EF_DEEP 0 0 256
              ltac:(lia) ltac:(lia) ltac:(lia) ltac:(cbn; lia)) as [_ Hwhole].
  split.
  - destruct Hchunks as (d1 & d2 & H1 & H2 & _ & H12).
    injection H1 as <-. injection H2 as <-. exact H12.
  - apply Hwhole. change (len (content EF_DEEP)) with 4. lia.
Defined.

(* ===================================================================== *)
(** ** The card context across commands                                   *)
(* ===================================================================== *)

Lemma handle_read_binary_context (ctx : CardContext) (apdu : Apdu) :
  snd (handle_read_binary ctx apdu) = ctx.
Proof.
  unfold handle_read_binary.
  destruct (current_file ctx); try reflexivity.
  destruct (le apdu); [|reflexivity]. cbv zeta.
  destruct (read_binary _ _ _) as [d|e]; [reflexivity|].
  destruct (is_IndexError e); [reflexivity|].
  destruct (is_ValueError e); reflexivity.
Qed.

Lemma handle_read_record_context (ctx : CardContext) (apdu : Apdu) :
  snd (handle_read_record ctx apdu) = ctx.
Proof.
  unfold handle_read_record.
  destruct (current_file ctx); try reflexivity. cbv zeta.
  destruct (negb _); [reflexivity|].
  destruct (_ =? 0); [reflexivity|].
  destruct (read_record _ _) as [r|e]; [reflexivity|].
  destruct (is_IndexError e); reflexivity.
Qed.

(** The three things a command can do to the context: nothing, reset it
    to the root, or select a node that [find] returned from the current
    container or from the root. *)
Lemma dispatch_context (ctx : CardContext) (apdu : Apdu) :
  snd (dispatch ctx apdu) = ctx \/
  snd (dispatch ctx apdu) = reset_to_mf ctx \/
  exists f n,
    (find (current_df ctx) f = Some n \/ find (mf_root ctx) f = Some n) /\
    snd (dispatch ctx apdu) = select_node ctx n.
Proof.
  destruct (Z.eq_dec (ins apdu) INS_SELECT_FILE) as [H1|H1].
  { rewrite dispatch_select by exact H1. rewrite handle_select_cases.
    destruct (lc apdu =? 0); [left; reflexivity|].
    destruct (data apdu) as [|d0 [|d1 [|d2 r]]]; try (left; reflexivity).
    destruct (_ =? _); [right; left; reflexivity|].
    destruct (find (current_df ctx) (fid_of_bytes d0 d1)) as [n|] eqn:Hrel.
    - right; right. exists (fid_of_bytes d0 d1), n. split; [left; exact Hrel|].
      reflexivity.
    - destruct (find (mf_root ctx) (fid_of_bytes d0 d1)) as [n|] eqn:Hglob.
      + right; right. exists (fid_of_bytes d0 d1), n.
        split; [right; exact Hglob|reflexivity].
      + left; reflexivity. }
  left.
  destruct (Z.eq_dec (ins apdu) INS_READ_BINARY) as [H2|H2];
    [rewrite dispatch_read_binary by exact H2;
     apply handle_read_binary_context|].
  destruct (Z.eq_dec (ins apdu) INS_READ_RECORD) as [H3|H3];
    [rewrite dispatch_read_record by exact H3;
     apply handle_read_record_context|].
  destruct (dispatch_unmapped ctx apdu H1 H2 H3) as [_ ->]. reflexivity.
Qed.

(** A node of the subtree of a node of the tree is a node of the tree. *)
Lemma nodes_at_depth_trans (d1 d2 : nat) (c : DF) (n : FileNode) :
  forall top : FileNode,
    In (NodeDF c) (nodes_at_depth d1 top) ->
    In n (nodes_at_depth d2 (NodeDF c)) ->
    In n (nodes_at_depth (d1 + d2) top).
Proof.
  induction d1 as [|d1 IH]; intros top Hc Hn.
  - destruct Hc as [->|[]]. exact Hn.
  - cbn [nodes_at_depth Nat.add] in *.
    destruct top as [self|t|l]; try (destruct Hc; fail).
    apply in_flat_map in Hc. destruct Hc as (kc & Hkc & Hc).
    apply in_flat_map. exists kc. split; [exact Hkc|].
    apply IH; assumption.
Qed.

Lemma in_tree_trans (root c : DF) (n : FileNode) :
  in_tree root (NodeDF c) -> in_tree c n -> in_tree root n.
Proof.
  intros (d1 & H1) (d2 & H2). exists (d1 + d2)%nat.
  eapply nodes_at_depth_trans; eassumption.
Qed.

Lemma in_tree_root (root : DF) : in_tree root (NodeDF root).
Proof. exists 0%nat. left. reflexivity. Qed.

Lemma dispatch_keeps_selection_ok (ctx : CardContext) (apdu : Apdu) :
  selection_ok ctx ->
  selection_ok (snd (dispatch ctx apdu)) /\
  mf_root (snd (dispatch ctx apdu)) = mf_root ctx.
Proof.
  intros (Hdf & Hfile & Hsame).
  destruct (dispatch_context ctx apdu)
    as [->|[->|(f & n & Hfind & ->)]].
  - split; [|reflexivity]. repeat split; assumption.
  - split; [|reflexivity]. unfold selection_ok, reset_to_mf.
    cbn [mf_root current_df current_file].
    split; [apply in_tree_root|]. split; [apply in_tree_root|].
    intros d [= <-]. reflexivity.
  - assert (Hn : in_tree (mf_root ctx) n).
    { destruct Hfind as [Hrel|Hglob].
      - apply in_tree_trans with (c := current_df ctx); [exact Hdf|].
        eapply find_in_subtree; eassumption.
      - eapply find_in_subtree; eassumption. }
    unfold selection_ok, select_node.
    destruct n as [d|t|l]; cbn [mf_root current_df current_file];
      (split; [|reflexivity]).
    + split; [exact Hn|]. split; [exact Hn|]. intros d' [= <-]. reflexivity.
    + split; [exact Hdf|]. split; [exact Hn|]. intros d' [=].
    + split; [exact Hdf|]. split; [exact Hn|]. intros d' [=].
Qed.

(** X10.  Whatever commands are dispatched on a context that started at
    the root, the tree of the context stays the one it started with, the
    current container and the current file are nodes of that tree, and a
    current file that is a container is the current container. *)
Theorem selection_stays_in_tree (root : DF) (apdus : list Apdu) :
  mf_root (after_commands (from_mf root) apdus) = root /\
  selection_ok (after_commands (from_mf root) apdus).
Proof.
  assert (Hgen : forall ctx,
             selection_ok ctx ->
             mf_root (after_commands ctx apdus) = mf_root ctx /\
             selection_ok (after_commands ctx apdus)).
  { unfold after_commands.
    induction apdus as [|a rest IH]; intros ctx Hok; cbn [fold_left].
    - split; [reflexivity|exact Hok].
    - destruct (dispatch_keeps_selection_ok a Hok) as [Hok' Hroot].
      destruct (IH _ Hok') as [Hr Hs]. split; [congruence|exact Hs]. }
  apply (Hgen (from_mf root)).
  unfold selection_ok, from_mf. cbn [mf_root current_df current_file].
  split; [apply in_tree_root|]. split; [apply in_tree_root|].
  intros d [= <-]. reflexivity.
Qed.

(** X11.  A command changes the context only when it is a SELECT that
    answers exactly 90 00: every other instruction, and every SELECT with
    another answer, leaves the context as it was. *)
Theorem context_changes_only_on_select (ctx : CardContext) (apdu : Apdu) :
  snd (dispatch ctx apdu) <> ctx ->
  ins apdu = INS_SELECT_FILE /\ fst (dispatch ctx apdu) = Ok SW_SUCCESS.
Proof.
  intros Hch.
  destruct (Z.eq_dec (ins apdu) INS_SELECT_FILE) as [H1|H1].
  - split; [exact H1|].
    rewrite dispatch_select in * by exact H1.
    rewrite handle_select_cases in *.
    destruct (lc apdu =? 0); [contradiction Hch; reflexivity|].
    destruct (data apdu) as [|d0 [|d1 [|d2 r]]];
      try (contradiction Hch; reflexivity).
    destruct (_ =? _); [reflexivity|].
    destruct (find (current_df ctx) _); [reflexivity|].
    destruct (find (mf_root ctx) _); [reflexivity|].
    contradiction Hch; reflexivity.
  - exfalso. apply Hch.
    destruct (Z.eq_dec (ins apdu) INS_READ_BINARY) as [H2|H2];
      [rewrite dispatch_read_binary by exact H2;
       apply handle_read_binary_context|].
    destruct (Z.eq_dec (ins apdu) INS_READ_RECORD) as [H3|H3];
      [rewrite dispatch_read_record by exact H3;
       apply handle_read_record_context|].
    destruct (dispatch_unmapped ctx apdu H1 H2 H3) as [_ ->]. reflexivity.
Qed.

Lemma context_changes_only_on_select_witness :
  ins (mkApdu 0x00 0xA4 0x00 0x0C 2 [x7f; x20] None) = INS_SELECT_FILE /\
  fst (dispatch (from_mf MF_sample)
                (mkApdu 0x00 0xA4 0x00 0x0C 2 [x7f; x20] None))
  = Ok SW_SUCCESS.
Proof.
  apply context_changes_only_on_select.
  cbv. discriminate.
Defined.

(* ===================================================================== *)
(** ** SELECT, further                                                    *)
(* ===================================================================== *)

Lemma fid_of_bytes_range (d0 d1 : byte) :
  fid_of_bytes d0 d1 = 256 * int_of_byte d0 + int_of_byte d1 /\
  0 <= fid_of_bytes d0 d1 <= 0xFFFF.
Proof.
  pose proof (int_of_byte_range d0). pose proof (int_of_byte_range d1).
  unfold fid_of_bytes. rewrite lor_shiftl_8 by lia. lia.
Qed.

Lemma fid_of_bytes_of_fid (f : Z) :
  0 <= f <= 0xFFFF ->
  fid_of_bytes (byte_of_int (f / 256)) (byte_of_int (f mod 256)) = f.
Proof.
  intros Hf.
  assert (H0 : f / 256 < 256) by (apply Z.div_lt_upper_bound; lia).
  assert (H1 : 0 <= f / 256 <= 255)
    by (split; [apply Z.div_pos; lia|lia]).
  assert (H2 : 0 <= f mod 256 < 256) by (apply Z.mod_pos_bound; lia).
  destruct (fid_of_bytes_range (byte_of_int (f / 256))
                               (byte_of_int (f mod 256))) as [-> _].
  rewrite !int_of_byte_of_int by lia.
  symmetry. apply Z.div_mod. lia.
Qed.

(** What a SELECT by fid does, on a command that carries the two bytes of
    the fid. *)
Lemma dispatch_select_fid (ctx : CardContext) (apdu : Apdu) (f : Z) :
  ins apdu = INS_SELECT_FILE -> lc apdu <> 0 ->
  0 <= f <= 0xFFFF -> data apdu = bytes_of_fid f ->
  dispatch ctx apdu =
  if f =? fid_of_DF (mf_root ctx) then (Ok SW_SUCCESS, reset_to_mf ctx)
  else match find (current_df ctx) f with
       | Some n => (Ok SW_SUCCESS, select_node ctx n)
       | None =>
           match find (mf_root ctx) f with
           | Some n => (Ok SW_SUCCESS, select_node ctx n)
           | None => (Ok SW_FILE_NOT_FOUND, ctx)
           end
       end.
Proof.
  intros Hins Hlc Hf Hdata.
  rewrite dispatch_select by exact Hins.
  rewrite handle_select_cases, Hdata. unfold bytes_of_fid.
  destruct (Z.eqb_spec (lc apdu) 0); [contradiction|].
  rewrite fid_of_bytes_of_fid by exact Hf. reflexivity.
Qed.

Lemma current_file_select_node (ctx : CardContext) (n : FileNode) :
  current_file (select_node ctx n) = n.
Proof. destruct n; reflexivity. Qed.

(** X12.  SELECT by fid in a well-formed tree: the answer is 90 00 or
    6A 82; it is 6A 82 exactly when the fid is not the root's and no node
    under the current container and no node of the tree carries it; and
    after 90 00 the current file carries the fid selected and is a node
    under the former current container or of the tree. *)
Theorem select_by_fid (ctx : CardContext) (apdu : Apdu) (f : Z) :
  wf_DF (mf_root ctx) = true -> wf_DF (current_df ctx) = true ->
  ins apdu = INS_SELECT_FILE -> lc apdu <> 0 ->
  0 <= f <= 0xFFFF -> data apdu = bytes_of_fid f ->
  (fst (dispatch ctx apdu) = Ok SW_SUCCESS \/
   fst (dispatch ctx apdu) = Ok SW_FILE_NOT_FOUND) /\
  (fst (dispatch ctx apdu) = Ok SW_FILE_NOT_FOUND <->
   f <> fid_of_DF (mf_root ctx) /\
   absent (current_df ctx) f /\ absent (mf_root ctx) f) /\
  (fst (dispatch ctx apdu) = Ok SW_SUCCESS ->
   fid (current_file (snd (dispatch ctx apdu))) = f /\
   (in_tree (current_df ctx) (current_file (snd (dispatch ctx apdu))) \/
    in_tree (mf_root ctx) (current_file (snd (dispatch ctx apdu))))).
Proof.
  intros Hwfr Hwfc Hins Hlc Hf Hdata.
  rewrite (dispatch_select_fid ctx apdu Hins Hlc Hf Hdata).
  assert (Hrel_ok : forall n, find (current_df ctx) f = Some n ->
                      fid n = f /\ in_tree (current_df ctx) n).
  { intros n Hn. split; [exact (@find_fid _ Hwfc _ _ Hn)|].
    eapply find_in_subtree; eassumption. }
  assert (Hglob_ok : forall n, find (mf_root ctx) f = Some n ->
                       fid n = f /\ in_tree (mf_root ctx) n).
  { intros n Hn. split; [exact (@find_fid _ Hwfr _ _ Hn)|].
    eapply find_in_subtree; eassumption. }
  assert (Hrel_none : find (current_df ctx) f = None <->
                      absent (current_df ctx) f)
    by (split; [apply find_none_absent|apply absent_find_none]; exact Hwfc).
  assert (Hglob_none : find (mf_root ctx) f = None <->
                       absent (mf_root ctx) f)
    by (split; [apply find_none_absent|apply absent_find_none]; exact Hwfr).
  destruct (Z.eqb_spec f (fid_of_DF (mf_root ctx))) as [Hroot|Hroot].
  { cbn [fst snd]. split; [left; reflexivity|]. split.
    - split; [discriminate|]. intros (Hne & _). contradiction.
    - intros _. unfold reset_to_mf. cbn [current_file fid].
      split; [symmetry; exact Hroot|]. right. apply in_tree_root. }
  destruct (find (current_df ctx) f) as [n|] eqn:Hrel.
  { cbn [fst snd]. split; [left; reflexivity|]. split.
    - split; [discriminate|]. intros (_ & Habs & _).
      apply Hrel_none in Habs. discriminate.
    - intros _. rewrite current_file_select_node.
      destruct (Hrel_ok n eq_refl) as [Hfid Hin].
      split; [exact Hfid|left; exact Hin]. }
  destruct (find (mf_root ctx) f) as [n|] eqn:Hglob.
  { cbn [fst snd]. split; [left; reflexivity|]. split.
    - split; [discriminate|]. intros (_ & _ & Habs).
      apply Hglob_none in Habs. discriminate.
    - intros _. rewrite current_file_select_node.
      destruct (Hglob_ok n eq_refl) as [Hfid Hin].
      split; [exact Hfid|right; exact Hin]. }
  cbn [fst snd]. split; [right; reflexivity|]. split.
  - split; [|reflexivity]. intros _.
    split; [exact Hroot|]. split; [apply Hrel_none|apply Hglob_none];
      reflexivity.
  - discriminate.
Qed.

Lemma select_by_fid_witness :
  fst (dispatch (select_node (from_mf MF_sample) (NodeDF DF_A))
                (mkApdu 0x00 0xA4 0x00 0x0C 2 [x6f; x3b] None))
  = Ok SW_SUCCESS /\
  fid (current_file
         (snd (dispatch (select_node (from_mf MF_sample) (NodeDF DF_A))
                        (mkApdu 0x00 0xA4 0x00 0x0C 2 [x6f; x3b] None))))
  = 0x6F3B.
Proof.
  destruct (@select_by_fid
              (select_node (from_mf MF_sample) (NodeDF DF_A))
              (mkApdu 0x00 0xA4 0x00 0x0C 2 [x6f; x3b] None) 0x6F3B
              eq_refl eq_refl eq_refl ltac:(discriminate)
              ltac:(lia) eq_refl) as (_ & _ & Hok).
  assert (H : fst (dispatch (select_node (from_mf MF_sample) (NodeDF DF_A))
                     (mkApdu 0x00 0xA4 0x00 0x0C 2 [x6f; x3b] None))
              = Ok SW_SUCCESS) by reflexivity.
  split; [exact H|exact (proj1 (Hok H))].
Defined.

(** X13.  In a well-formed tree a command dispatched a second time gets
    the same answer and leaves the context as the first time left it: a
    SELECT that has selected a node selects the same node again. *)
Theorem dispatch_twice (ctx ctx1 : CardContext) (apdu : Apdu)
        (r : result bytes) :
  wf_DF (mf_root ctx) = true -> wf_DF (current_df ctx) = true ->
  dispatch ctx apdu = (r, ctx1) ->
  dispatch ctx1 apdu = (r, ctx1).
Proof.
  intros Hwfr Hwfc Hd.
  destruct (Z.eq_dec (ins apdu) INS_SELECT_FILE) as [H1|H1].
  - rewrite dispatch_select in * by exact H1.
    rewrite handle_select_cases in *.
    destruct (lc apdu =? 0); [injection Hd as <- <-; reflexivity|].
    destruct (data apdu) as [|d0 [|d1 [|d2 rest]]];
      try (injection Hd as <- <-; reflexivity).
    set (f := fid_of_bytes d0 d1) in *.
    destruct (Z.eqb_spec f (fid_of_DF (mf_root ctx))) as [Hroot|Hroot].
    { injection Hd as <- <-. cbn [reset_to_mf mf_root].
      destruct (Z.eqb_spec f (fid_of_DF (mf_root ctx))); [|contradiction].
      reflexivity. }
    assert (Hsel : forall n,
               (find (current_df ctx) f = Some n \/
                find (current_df ctx) f = None /\ find (mf_root ctx) f = Some n) ->
               (if f =? fid_of_DF (mf_root (select_node ctx n))
                then (Ok SW_SUCCESS, reset_to_mf (select_node ctx n))
                else
                  match find (current_df (select_node ctx n)) f with
                  | Some n0 => (Ok SW_SUCCESS,
                                select_node (select_node ctx n) n0)
                  | None =>
                      match find (mf_root (select_node ctx n)) f with
                      | Some n0 => (Ok SW_SUCCESS,
                                    select_node (select_node ctx n) n0)
                      | None => (Ok SW_FILE_NOT_FOUND, select_node ctx n)
                      end
                  end) = (Ok SW_SUCCESS, select_node ctx n)).
    { intros n Hn.
      assert (Hfid : fid n = f).
      { destruct Hn as [Hn|[_ Hn]].
        - exact (@find_fid _ Hwfc _ _ Hn).
        - exact (@find_fid _ Hwfr _ _ Hn). }
      destruct n as [d|t|l]; cbn [select_node mf_root current_df];
        (destruct (Z.eqb_spec f (fid_of_DF (mf_root ctx))); [contradiction|]).
      - cbn [fid] in Hfid. rewrite find_unfold, Hfid, Z.eqb_refl. reflexivity.
      - destruct Hn as [->|[-> ->]]; reflexivity.
      - destruct Hn as [->|[-> ->]]; reflexivity. }
    destruct (find (current_df ctx) f) as [n|] eqn:Hrel.
    { injection Hd as <- <-. apply Hsel. left. reflexivity. }
    destruct (find (mf_root ctx) f) as [n|] eqn:Hglob.
    { injection Hd as <- <-. apply Hsel. right. split; reflexivity. }
    injection Hd as <- <-. rewrite Hrel, Hglob.
    destruct (Z.eqb_spec f (fid_of_DF (mf_root ctx))); [contradiction|].
    reflexivity.
  - assert (Hsame : ctx1 = ctx).
    { destruct (Z.eq_dec (ins apdu) INS_READ_BINARY) as [H2|H2].
      - rewrite dispatch_read_binary in Hd by exact H2.
        rewrite <- (handle_read_binary_context ctx apdu), Hd. reflexivity.
      - destruct (Z.eq_dec (ins apdu) INS_READ_RECORD) as [H3|H3].
        + rewrite dispatch_read_record in Hd by exact H3.
          rewrite <- (handle_read_record_context ctx apdu), Hd. reflexivity.
        + destruct (dispatch_unmapped ctx apdu H1 H2 H3) as [_ E].
          rewrite E in Hd. injection Hd as _ <-. reflexivity. }
    subst ctx1. exact Hd.
Qed.

Lemma dispatch_twice_witness :
  dispatch (snd (dispatch (from_mf MF_sample)
                          (mkApdu 0x00 0xA4 0x00 0x0C 2 [x5f; x10] None)))
           (mkApdu 0x00 0xA4 0x00 0x0C 2 [x5f; x10] None)
  = (Ok SW_SUCCESS, select_node (from_mf MF_sample) (NodeDF DF_A1)).
Proof.
  refine (@dispatch_twice (from_mf MF_sample)
            (select_node (from_mf MF_sample) (NodeDF DF_A1))
            (mkApdu 0x00 0xA4 0x00 0x0C 2 [x5f; x10] None)
            (Ok SW_SUCCESS) eq_refl eq_refl eq_refl).
Defined.

(* ===================================================================== *)
(** ** READ BINARY and READ RECORD, further                               *)
(* ===================================================================== *)

Lemma requested_range (l : Z) : is_u8 l -> 1 <= requested l <= 256.
Proof.
  unfold is_u8, requested. intros H.
  destruct (Z.eqb_spec l 0); lia.
Qed.

(** X14.  READ BINARY on a command with byte-sized P1, P2 and Le never
    raises and never changes the context.  It answers 69 86 when the
    current file is not a transparent file, before anything else is
    looked at; then 67 00 when Le is absent; then 6B 00 when the offset
    [256 * P1 + P2] is past the end of the content; otherwise the content
    from the offset on, at most 256 bytes when Le is 0 and at most Le
    bytes otherwise, followed by 90 00. *)
Theorem read_binary_answer (ctx : CardContext) (apdu : Apdu) :
  ins apdu = INS_READ_BINARY ->
  is_u8 (p1 apdu) -> is_u8 (p2 apdu) ->
  (forall l, le apdu = Some l -> is_u8 l) ->
  exists resp,
    dispatch ctx apdu = (Ok resp, ctx) /\
    match current_file ctx with
    | NodeTransparentEF t =>
        match le apdu with
        | None => resp = SW_WRONG_LENGTH
        | Some l =>
            let offset := 256 * p1 apdu + p2 apdu in
            if len (content t) <? offset then resp = SW_WRONG_P1P2
            else
              resp = firstn (Z.to_nat (requested l))
                            (skipn (Z.to_nat offset) (content t))
                     ++ SW_SUCCESS /\
              len resp = Z.min (requested l) (len (content t) - offset) + 2 /\
              len resp <= 258
        end
    | _ => resp = SW_COMMAND_NOT_ALLOWED
    end.
Proof.
  intros Hins Hp1 Hp2 Hle.
  rewrite dispatch_read_binary by exact Hins.
  unfold handle_read_binary.
  destruct (current_file ctx) as [d|t|r];
    try (eexists; split; reflexivity).
  destruct (le apdu) as [l|] eqn:El; [|eexists; split; reflexivity].
  cbv zeta. fold (requested l).
  pose proof (requested_range (Hle l eq_refl)) as Hreq.
  assert (Hoff : p1p2 apdu = 256 * p1 apdu + p2 apdu)
    by (unfold p1p2, is_u8 in *; rewrite lor_shiftl_8 by lia; reflexivity).
  assert (Hrange : 0 <= 256 * p1 apdu + p2 apdu)
    by (unfold is_u8 in *; lia).
  rewrite read_binary_cases, Hoff.
  pose proof (len_nonneg (content t)) as Hlen.
  destruct (Z.ltb_spec (256 * p1 apdu + p2 apdu) 0); [lia|].
  destruct (Z.ltb_spec (requested l) 0); [lia|]. cbn [orb].
  destruct (Z.ltb_spec (len (content t)) (256 * p1 apdu + p2 apdu)).
  - eexists. split; reflexivity.
  - eexists. split; [reflexivity|]. split; [reflexivity|].
    rewrite len_app, len_firstn by lia. rewrite len_skipn by lia.
    change (len SW_SUCCESS) with 2. lia.
Qed.

Lemma read_binary_answer_witness :
  exists resp,
    dispatch (select_node (from_mf MF_sample) (NodeTransparentEF EF_DEEP))
             (mkApdu 0x00 0xB0 0x00 0x01 0 [] (Some 0))
    = (Ok resp, select_node (from_mf MF_sample) (NodeTransparentEF EF_DEEP)) /\
    resp = [x02; x03; x04] ++ SW_SUCCESS.
Proof.
  destruct (@read_binary_answer
              (select_node (from_mf MF_sample) (NodeTransparentEF EF_DEEP))
              (mkApdu 0x00 0xB0 0x00 0x01 0 [] (Some 0)) eq_refl)
    as (resp & Hd & Hresp).
  - unfold is_u8; cbn; lia.
  - unfold is_u8; cbn; lia.
  - intros l [= <-]. unfold is_u8; lia.
  - exists resp. split; [exact Hd|]. exact (proj1 Hresp).
Defined.

(** X15.  READ RECORD on a command with a byte-sized Le never raises and
    never changes the context.  It answers 69 86 when the current file is
    not a record file; then 6A 81 when the access mode is not absolute,
    whatever the record number; then 6B 00 for record number 0 and 6A 83
    for a record number past the record count; otherwise the record, cut
    to 256 bytes when Le is 0 and to Le bytes when Le is another value,
    followed by 90 00. *)
Theorem read_record_answer (ctx : CardContext) (apdu : Apdu) :
  ins apdu = INS_READ_RECORD ->
  0 <= p1 apdu ->
  (forall l, le apdu = Some l -> is_u8 l) ->
  exists resp,
    dispatch ctx apdu = (Ok resp, ctx) /\
    match current_file ctx with
    | NodeLinearFixedEF r =>
        if negb (Z.land (p2 apdu) 0x07 =? 0x04)
        then resp = SW_FUNC_NOT_SUPPORTED
        else if p1 apdu =? 0 then resp = SW_WRONG_P1P2
        else if record_count r <? p1 apdu then resp = SW_RECORD_NOT_FOUND
        else
          exists rec,
            nth_error (records r) (Z.to_nat (p1 apdu - 1)) = Some rec /\
            resp = match le apdu with
                   | None => rec
                   | Some l => firstn (Z.to_nat (requested l)) rec
                   end ++ SW_SUCCESS /\
            (records_ok r = true ->
             len rec = record_len r /\
             (record_len r <= 256 -> le apdu = Some 0 ->
              resp = rec ++ SW_SUCCESS))
    | _ => resp = SW_COMMAND_NOT_ALLOWED
    end.
Proof.
  intros Hins Hp1 Hle.
  rewrite dispatch_read_record by exact Hins.
  unfold handle_read_record.
  destruct (current_file ctx) as [d|t|r];
    try (eexists; split; reflexivity).
  cbv zeta.
  destruct (negb (Z.land (p2 apdu) 0x07 =? 0x04));
    [eexists; split; reflexivity|].
  destruct (Z.eqb_spec (p1 apdu) 0); [eexists; split; reflexivity|].
  destruct (Z.ltb_spec (record_count r) (p1 apdu)) as [Hout|Hin].
  - rewrite read_record_outside by (right; exact Hout).
    eexists. split; reflexivity.
  - assert (Hn : 1 <= p1 apdu <= record_count r) by lia.
    destruct (read_record_inside r Hn) as (rec & -> & Hnth).
    eexists. split; [reflexivity|].
    exists rec. split; [exact Hnth|].
    assert (Hcut : match le apdu with
                   | Some l => slice_to rec (if l =? 0 then 256 else l)
                   | None => rec
                   end =
                   match le apdu with
                   | Some l => firstn (Z.to_nat (requested l)) rec
                   | None => rec
                   end).
    { destruct (le apdu) as [l|] eqn:El; [|reflexivity].
      fold (requested l).
      pose proof (requested_range (Hle l eq_refl)).
      apply slice_to_spec. lia. }
    rewrite Hcut. split; [reflexivity|].
    intros Hok.
    assert (Hlen : len rec = record_len r).
    { unfold records_ok in Hok. apply andb_prop in Hok.
      destruct Hok as [_ Hall]. rewrite forallb_forall in Hall.
      apply Z.eqb_eq. apply Hall. eapply nth_error_In. exact Hnth. }
    split; [exact Hlen|]. intros Hshort ->.
    change (requested 0) with 256.
    rewrite firstn_all2 by (unfold len in *; lia). reflexivity.
Qed.

Lemma read_record_answer_witness :
  exists resp,
    dispatch (select_node (from_mf MF_sample) (NodeLinearFixedEF EF_REC))
             (mkApdu 0x00 0xB2 0x01 0x04 0 [] (Some 2))
    = (Ok resp, select_node (from_mf MF_sample) (NodeLinearFixedEF EF_REC)) /\
    resp = [x11; x12; x90; x00].
Proof.
  destruct (@read_record_answer
              (select_node (from_mf MF_sample) (NodeLinearFixedEF EF_REC))
              (mkApdu 0x00 0xB2 0x01 0x04 0 [] (Some 2)) eq_refl)
    as (resp & Hd & Hresp).
  - cbn; lia.
  - intros l [= <-]. unfold is_u8; lia.
  - exists resp. split; [exact Hd|].
    destruct Hresp as (rec & Hnth & -> & _).
    injection Hnth as <-. reflexivity.
Defined.

(** X16.  SELECT followed by READ BINARY: when the fid is not the root's
    and the lookup under the current container finds a transparent file,
    the SELECT answers 90 00 and keeps the current container, and a READ
    BINARY at offset 0 that follows answers the first bytes of that file's
    content, as many as Le asks for, and 90 00. *)
Theorem select_then_read_binary
  (ctx : CardContext) (sel rd : Apdu) (f l : Z) (t : TransparentEF) :
  ins sel = INS_SELECT_FILE -> lc sel <> 0 ->
  0 <= f <= 0xFFFF -> data sel = bytes_of_fid f ->
  f <> fid_of_DF (mf_root ctx) ->
  find_under_current_df ctx f = Some (NodeTransparentEF t) ->
  ins rd = INS_READ_BINARY -> p1 rd = 0 -> p2 rd = 0 ->
  le rd = Some l -> is_u8 l ->
  exists ctx1,
    dispatch ctx sel = (Ok SW_SUCCESS, ctx1) /\
    current_df ctx1 = current_df ctx /\
    current_file ctx1 = NodeTransparentEF t /\
    dispatch ctx1 rd =
    (Ok (firstn (Z.to_nat (requested l)) (content t) ++ SW_SUCCESS), ctx1).
Proof.
  intros Hins Hlc Hf Hdata Hroot Hrel Hrd Hp1 Hp2 Hle Hl.
  exists (select_node ctx (NodeTransparentEF t)).
  split; [|split; [reflexivity|split; [reflexivity|]]].
  - rewrite (dispatch_select_fid ctx sel Hins Hlc Hf Hdata).
    destruct (Z.eqb_spec f (fid_of_DF (mf_root ctx))); [contradiction|].
    unfold find_under_current_df in Hrel. rewrite Hrel. reflexivity.
  - rewrite dispatch_read_binary by exact Hrd.
    unfold handle_read_binary, select_node. cbn [current_file].
    rewrite Hle. cbv zeta. fold (requested l).
    pose proof (requested_range Hl) as Hreq.
    unfold p1p2. rewrite Hp1, Hp2. change (Z.lor (Z.shiftl 0 8) 0) with 0.
    rewrite read_binary_cases.
    pose proof (len_nonneg (content t)) as Hlen.
    destruct (Z.ltb_spec (requested l) 0); [lia|].
    destruct (Z.ltb_spec (len (content t)) 0); [lia|].
    reflexivity.
Qed.

Lemma select_then_read_binary_witness :
  exists ctx1,
    dispatch (select_node (from_mf MF_sample) (NodeDF DF_B))
             (mkApdu 0x00 0xA4 0x00 0x0C 2 [x6f; x01] None)
    = (Ok SW_SUCCESS, ctx1) /\
    dispatch ctx1 (mkApdu 0x00 0xB0 0x00 0x00 0 [] (Some 1))
    = (Ok [xaa; x90; x00], ctx1).
Proof.
  destruct (@select_then_read_binary
              (select_node (from_mf MF_sample) (NodeDF DF_B))
              (mkApdu 0x00 0xA4 0x00 0x0C 2 [x6f; x01] None)
              (mkApdu 0x00 0xB0 0x00 0x00 0 [] (Some 1))
              0x6F01 1 EF_SHALLOW
              eq_refl ltac:(discriminate) ltac:(lia) eq_refl
              ltac:(discriminate) eq_refl eq_refl eq_refl eq_refl eq_refl
              ltac:(unfold is_u8; lia))
    as (ctx1 & Hsel & _ & _ & Hrd).
  exists ctx1. split; [exact Hsel|exact Hrd].
Defined.

(* ===================================================================== *)
(** ** The transport's handling of a line                                 *)
(* ===================================================================== *)

Section TransportFacts.

Variable decode_hex : bytes -> result bytes.

(** X17.  Whatever the hex decoder does, the handling of a line yields a
    response that ends in a status word of the vocabulary.  A line that
    does not decode, with a [ValueError], and a buffer [parse_apdu]
    refuses are both answered 67 00 with the context untouched; a buffer
    that parses is answered with what [dispatch] returns, so the
    catch-all answer 6A 81 of the last [except] clause is never given for
    a line that decodes. *)
Theorem handle_line_total (ctx : CardContext) (line : bytes) :
  (exists body sw,
     fst (handle_line decode_hex ctx line) = body ++ sw /\
     In sw status_vocabulary /\ len sw = 2) /\
  (forall e, decode_hex line = Raise e -> is_ValueError e = true ->
     handle_line decode_hex ctx line = (SW_WRONG_LENGTH, ctx)) /\
  (forall raw, decode_hex line = Ok raw ->
     (forall e, parse_apdu raw = Raise e ->
        handle_line decode_hex ctx line = (SW_WRONG_LENGTH, ctx)) /\
     (forall apdu, parse_apdu raw = Ok apdu ->
        dispatch ctx apdu =
        (Ok (fst (handle_line decode_hex ctx line)),
         snd (handle_line decode_hex ctx line)))).
Proof.
  assert (Hvocab : forall sw, In sw returned_statuses ->
            exists body sw', sw = body ++ sw' /\
              In sw' status_vocabulary /\ len sw' = 2).
  { intros sw Hin. exists [], sw. split; [reflexivity|].
    apply returned_in_vocabulary. exact Hin. }
  unfold handle_line.
  split; [|split].
  - destruct (decode_hex line) as [raw|e].
    + destruct (parse_apdu raw) as [apdu|e] eqn:Hp.
      * destruct (dispatch_response ctx apdu)
          as (body & sw & ctx' & -> & Hin).
        exists body, sw. split; [reflexivity|].
        apply returned_in_vocabulary. exact Hin.
      * destruct (parse_apdu_raises_only raw Hp) as [_ ->].
        apply Hvocab. cbn. tauto.
    + destruct (is_ValueError e); [apply Hvocab; cbn; tauto|].
      destruct (is_ApduParseError e); apply Hvocab; cbn; tauto.
  - intros e -> ->. reflexivity.
  - intros raw ->. split.
    + intros e Hp. rewrite Hp.
      destruct (parse_apdu_raises_only raw Hp) as [_ ->]. reflexivity.
    + intros apdu ->.
      destruct (dispatch_response ctx apdu)
        as (body & sw & ctx' & -> & _).
      reflexivity.
Qed.

End TransportFacts.

Lemma handle_line_total_witness :
  handle_line (fun line => Ok line) (from_mf MF_sample) [x00; xa4; x00]
  = (SW_WRONG_LENGTH, from_mf MF_sample).
Proof.
  destruct (handle_line_total (fun line => Ok line) (from_mf MF_sample)
              [x00; xa4; x00]) as (_ & _ & Hok).
  destruct (Hok [x00; xa4; x00] eq_refl) as [Hbad _].
  apply (Hbad (ApduParseError TooShort)). reflexivity.
Defined.

(* ===================================================================== *)
(** ** What the handlers look at, and what a selection moves              *)
(* ===================================================================== *)

(** X18.  A command that leaves a leaf file current has not moved the
    current container, and a command that changes the context and leaves
    a container current has made that container the current container. *)
Theorem selection_moves_container (ctx : CardContext) (apdu : Apdu) :
  match current_file (snd (dispatch ctx apdu)) with
  | NodeDF d =>
      snd (dispatch ctx apdu) = ctx \/ current_df (snd (dispatch ctx apdu)) = d
  | _ => current_df (snd (dispatch ctx apdu)) = current_df ctx
  end.
Proof.
  destruct (dispatch_context ctx apdu)
    as [->|[->|(f & n & _ & ->)]].
  - destruct (current_file ctx); [left|..]; reflexivity.
  - cbn [reset_to_mf current_file current_df]. right. reflexivity.
  - destruct n as [d|t|l]; cbn [select_node current_file current_df];
      [right|..]; reflexivity.
Qed.

(** X19.  SELECT looks at Lc and the data field only: two SELECT commands
    with the same Lc and data get the same answer and leave the same
    context, whatever their class, P1, P2 and Le, and the answer is a
    bare status word, never any data.  The other instructions look at P1,
    P2 and Le only: two commands with the same instruction, not SELECT,
    and the same P1, P2 and Le get the same answer whatever their class,
    Lc and data. *)
Theorem dispatch_field_independence (ctx : CardContext) (a b : Apdu) :
  ins a = ins b ->
  (ins a = INS_SELECT_FILE -> lc a = lc b -> data a = data b ->
     dispatch ctx a = dispatch ctx b /\
     exists sw, fst (dispatch ctx a) = Ok sw /\ len sw = 2) /\
  (ins a <> INS_SELECT_FILE -> p1 a = p1 b -> p2 a = p2 b -> le a = le b ->
     dispatch ctx a = dispatch ctx b).
Proof.
  intros Hins. split.
  - intros Ha Hlc Hdata.
    assert (Hb : ins b = INS_SELECT_FILE) by congruence.
    rewrite (dispatch_select ctx a Ha), (dispatch_select ctx b Hb).
    rewrite !handle_select_cases, <- Hlc, <- Hdata.
    split; [reflexivity|].
    destruct (lc a =? 0); [eexists; split; reflexivity|].
    destruct (data a) as [|d0 [|d1 [|d2 r]]];
      try (eexists; split; reflexivity).
    destruct (_ =? _); [eexists; split; reflexivity|].
    destruct (find (current_df ctx) _); [eexists; split; reflexivity|].
    destruct (find (mf_root ctx) _); eexists; split; reflexivity.
  - intros Ha H1 H2 Hle.
    destruct (Z.eq_dec (ins a) INS_READ_BINARY) as [Hrb|Hrb].
    { rewrite (dispatch_read_binary ctx a Hrb).
      rewrite (dispatch_read_binary ctx b) by congruence.
      unfold handle_read_binary, p1p2. rewrite H1, H2, Hle. reflexivity. }
    destruct (Z.eq_dec (ins a) INS_READ_RECORD) as [Hrr|Hrr].
    { rewrite (dispatch_read_record ctx a Hrr).
      rewrite (dispatch_read_record ctx b) by congruence.
      unfold handle_read_record. rewrite H1, H2, Hle. reflexivity. }
    destruct (dispatch_unmapped ctx a Ha Hrb Hrr) as [_ ->].
    assert (Hb1 : ins b <> INS_SELECT_FILE) by congruence.
    assert (Hb2 : ins b <> INS_READ_BINARY) by congruence.
    assert (Hb3 : ins b <> INS_READ_RECORD) by congruence.
    destruct (dispatch_unmapped ctx b Hb1 Hb2 Hb3) as [_ ->]. reflexivity.
Qed.

Lemma dispatch_field_independence_witness :
  dispatch (from_mf MF_sample) (mkApdu 0x00 0xA4 0x00 0x0C 2 [x7f; x20] None)
  = dispatch (from_mf MF_sample)
             (mkApdu 0x80 0xA4 0x04 0x00 2 [x7f; x20] (Some 0)).
Proof.
  refine (proj1 (proj1 (@dispatch_field_independence (from_mf MF_sample)
            (mkApdu 0x00 0xA4 0x00 0x0C 2 [x7f; x20] None)
            (mkApdu 0x80 0xA4 0x04 0x00 2 [x7f; x20] (Some 0)) eq_refl)
            eq_refl eq_refl eq_refl)).
Defined.

(** X20.  [add_child] and [find] together: after a node has been added,
    a fid that is neither the container's nor the new node's is found
    where it was found before; when it was not found before, it is now
    looked for in the new node, if that is a container, and nowhere
    else.  The new node's fid finds the new node. *)
Theorem find_after_add_child (self self' : DF) (node : FileNode) (f : Z) :
  add_child self node = Ok self' ->
  f <> fid_of_DF self ->
  (f = fid node -> find self' f = Some node) /\
  (f <> fid node ->
     find self' f =
     match find self f with
     | Some hit => Some hit
     | None =>
         match node with
         | NodeDF d => find d f
         | _ => None
         end
     end).
Proof.
  unfold add_child.
  destruct (dict_mem (children self) (fid node)) eqn:Hmem; [discriminate|].
  intros [= <-] Hself. rewrite !find_unfold. unfold get_child.
  cbn [fid_of_DF children].
  destruct (Z.eqb_spec f (fid_of_DF self)); [contradiction|].
  rewrite dict_get_app, first_hit_app.
  split.
  - intros ->. unfold dict_mem in Hmem.
    destruct (dict_get (children self) (fid node)); [discriminate|].
    cbn [dict_get]. rewrite Z.eqb_refl. reflexivity.
  - intros Hne.
    destruct (dict_get (children self) f); [reflexivity|].
    cbn [dict_get]. destruct (Z.eqb_spec f (fid node)); [contradiction|].
    destruct (first_hit (fun child => find child f) (children self));
      [reflexivity|].
    destruct node as [d|t|l]; cbn [first_hit]; [|reflexivity|reflexivity].
    destruct (find d f); reflexivity.
Qed.

Lemma find_after_add_child_witness :
  exists self',
    add_child DF_A (NodeDF DF_B) = Ok self' /\
    find self' 0x6F01 = Some (NodeTransparentEF EF_DEEP) /\
    find self' 0x6F3B = Some (NodeLinearFixedEF EF_REC) /\
    find self' 0x7F20 = Some (NodeDF DF_B).
Proof.
  exists (mkDF false 0x7F10 "DF_A"
            [(0x5F10, NodeDF DF_A1); (0x7F20, NodeDF DF_B)]).
  assert (Hadd : add_child DF_A (NodeDF DF_B) =
                 Ok (mkDF false 0x7F10 "DF_A"
                       [(0x5F10, NodeDF DF_A1); (0x7F20, NodeDF DF_B)]))
    by reflexivity.
  split; [exact Hadd|]. split; [|split].
  - rewrite (proj2 (@find_after_add_child _ _ _ 0x6F01 Hadd
                      ltac:(discriminate)) ltac:(discriminate)).
    reflexivity.
  - rewrite (proj2 (@find_after_add_child _ _ _ 0x6F3B Hadd
                      ltac:(discriminate)) ltac:(discriminate)).
    reflexivity.
  - apply (proj1 (@find_after_add_child _ _ _ 0x7F20 Hadd
                      ltac:(discriminate))). reflexivity.
Defined.
